(** * AR model viewer backend: the image-to-GLB conversion gateway

    A shallow embedding of [src/backend/api_linux.py]: the module start-up
    code that binds the device and loads the pipeline, the job runner
    [process_image_to_glb_bytes], and the two FastAPI handlers [root] and
    [convert_image].

    Python values are modelled as follows.
    - [str] is [string], holding the UTF-8 bytes of the text.  The code
      under study inspects the characters ['.'] and ['/'], and the response
      headers must encode as latin-1; everything else is carried along
      unchanged.
    - [bytes] is [list byte].
    - An exception is represented by its [str(e)] text, which is the only
      thing the handlers ever read from it.  Only instances of [Exception]
      are represented.
    - Calls into torch, PIL, trellis and sanitize_filename are collaborators
      whose code is not part of the module; they are the fields of a record
      [Collaborators], each returning a [result], and the calls the module
      issues are recorded in a trace of events. *)

From Stdlib Require Import String Ascii List ZArith Lia Bool Arith.
From Stdlib.Strings Require Import Byte.
Import ListNotations.

Local Open Scope string_scope.
Local Open Scope Z_scope.

(** ** Python strings *)

Module PyStr.

(** [len(s)] *)
Definition len (s : string) : Z := Z.of_nat (String.length s).

(** [s[:k]] for a non-negative [k]. *)
Fixpoint take (k : nat) (s : string) : string :=
  match k, s with
  | O, _ => EmptyString
  | S _, EmptyString => EmptyString
  | S k', String a s' => String a (take k' s')
  end.

(** [s[k:]] for a non-negative [k]. *)
Fixpoint drop (k : nat) (s : string) : string :=
  match k, s with
  | O, _ => s
  | S _, EmptyString => EmptyString
  | S k', String _ s' => drop k' s'
  end.

(** [s[i:i+1]]: the one-character slice, empty when [i] is out of range. *)
Definition slice1 (i : nat) (s : string) : string := take 1 (drop i s).

(** The scan behind [str.rfind]: [i] is the index of the head of [s] and
    [last] the highest index seen so far that holds [c]. *)
Fixpoint rfind_from (c : ascii) (s : string) (i last : Z) : Z :=
  match s with
  | EmptyString => last
  | String a s' => rfind_from c s' (i + 1) (if Ascii.eqb a c then i else last)
  end.

(** [s.rfind(c)]: the highest index holding [c], or [-1]. *)
Definition rfind (c : ascii) (s : string) : Z := rfind_from c s 0 (-1).

(** [c in s] *)
Fixpoint mem (c : ascii) (s : string) : bool :=
  match s with
  | EmptyString => false
  | String a s' => Ascii.eqb a c || mem c s'
  end.

(** [s.endswith(suffix)] *)
Definition endswith (suffix s : string) : bool :=
  String.eqb (drop (String.length s - String.length suffix) s) suffix
  && (String.length suffix <=? String.length s)%nat.

(** [s.encode("latin-1")] returns: every character of [s] is at most
    U+00FF.  In UTF-8 the characters above U+00FF are those whose lead byte
    is 0xC4 or more. *)
Fixpoint latin1 (s : string) : bool :=
  match s with
  | EmptyString => true
  | String a s' => (nat_of_ascii a <? 196)%nat && latin1 s'
  end.

(** Truthiness of a [str]: [not s] holds exactly for the empty string. *)
Definition is_empty (s : string) : bool :=
  match s with EmptyString => true | String _ _ => false end.

End PyStr.

(** ** [os.path.splitext] (posixpath: [sep = '/'], no [altsep], [extsep = '.']) *)

Module PosixPath.
Import PyStr.

Definition sep : ascii := "/"%char.
Definition extsep : ascii := "."%char.

(** The [while filenameIndex < dotIndex] loop of [genericpath._splitext],
    which skips the leading dots of the file name.  [n] is the number of
    iterations left, [dotIndex - filenameIndex]; the loop answers [true]
    when it returns the split from inside its body and [false] when it
    runs to the end. *)
Fixpoint skip_leading_dots (p : string) (filenameIndex n : nat) : bool :=
  match n with
  | O => false
  | S n' =>
      if negb (String.eqb (slice1 filenameIndex p) (String extsep EmptyString))
      then true
      else skip_leading_dots p (S filenameIndex) n'
  end.

Definition splitext (p : string) : string * string :=
  let sepIndex := rfind sep p in
  let dotIndex := rfind extsep p in
  if (dotIndex >? sepIndex)
     && skip_leading_dots p (Z.to_nat (sepIndex + 1))
                          (Z.to_nat (dotIndex - (sepIndex + 1)))
  then (take (Z.to_nat dotIndex) p, drop (Z.to_nat dotIndex) p)
  else (p, EmptyString).

End PosixPath.

(** ** Effects: exceptions, the call trace and the module globals *)

(** What a Python call produces: a value, or a raised [Exception] given by
    its [str(e)]. *)
Inductive result (A : Type) : Type :=
| Ok (a : A)
| Raise (e : string).
Arguments Ok {A} a.
Arguments Raise {A} e.

Definition bytes : Type := list byte.

(** The observable calls of the module, in the order they are issued. *)
Inductive Event : Type :=
| EvPrint (line : string)            (* print(line) *)
| EvFromPretrained (name : string)   (* TrellisImageTo3DPipeline.from_pretrained(name) *)
| EvPipelineTo (device : string)     (* pipeline.to(device) *)
| EvFileRead                         (* await file.read() *)
| EvImageOpen                        (* Image.open(io.BytesIO(image_data)) *)
| EvPipelineRun                      (* pipeline.run(image, seed=1, formats=[...]) *)
| EvToGlb                            (* postprocessing_utils.to_glb(...) *)
| EvExport                           (* glb.export(glb_buffer, file_type='glb') *)
| EvDelOutputs                       (* del outputs *)
| EvEmptyCache.                      (* torch.cuda.empty_cache() *)

Definition Event_eq_dec (a b : Event) : {a = b} + {a <> b}.
Proof. decide equality; apply string_dec. Defined.

(** The module-level names bound by the start-up code. *)
Record Globals (Pipeline : Type) : Type := {
  device : string;
  pipeline : option Pipeline
}.
Arguments device {Pipeline} g.
Arguments pipeline {Pipeline} g.

Record World (Pipeline : Type) : Type := {
  globals : Globals Pipeline;
  trace : list Event
}.
Arguments globals {Pipeline} w.
Arguments trace {Pipeline} w.

(** The world after the calls [evs] have been issued. *)
Definition logged {Pipeline : Type} (w : World Pipeline) (evs : list Event)
  : World Pipeline :=
  {| globals := globals w; trace := trace w ++ evs |}.

(** Number of calls of one kind recorded in a trace. *)
Definition calls (ev : Event) (t : list Event) : nat := count_occ Event_eq_dec t ev.

(** State-and-exception monad over the world. *)
Definition M (Pipeline A : Type) : Type := World Pipeline -> result A * World Pipeline.

Section Monad.
Context {Pipeline : Type}.

Definition ret {A} (a : A) : M Pipeline A := fun w => (Ok a, w).

Definition raise {A} (e : string) : M Pipeline A := fun w => (Raise e, w).

Definition bind {A B} (m : M Pipeline A) (k : A -> M Pipeline B) : M Pipeline B :=
  fun w =>
    match m w with
    | (Ok a, w') => k a w'
    | (Raise e, w') => (Raise e, w')
    end.

(** [try: body except Exception as e: handler(e)] *)
Definition try_except {A} (body : M Pipeline A) (handler : string -> M Pipeline A)
  : M Pipeline A :=
  fun w =>
    match body w with
    | (Ok a, w') => (Ok a, w')
    | (Raise e, w') => handler e w'
    end.

Definition emit (ev : Event) : M Pipeline unit :=
  fun w => (Ok tt, logged w [ev]).

Definition get_globals : M Pipeline (Globals Pipeline) := fun w => (Ok (globals w), w).

(** A call to a collaborator: the call is issued, then it returns or raises. *)
Definition call {A} (ev : Event) (r : result A) : M Pipeline A :=
  bind (emit ev) (fun _ => match r with Ok a => ret a | Raise e => raise e end).

(** A pure collaborator call that leaves no trace. *)
Definition lift {A} (r : result A) : M Pipeline A :=
  match r with Ok a => ret a | Raise e => raise e end.

Definition print (line : string) : M Pipeline unit := emit (EvPrint line).

(** [await run_in_threadpool(f, *args)]: the awaiting handler resumes with
    what [f] returned or raised.  Seen from one request this is the call
    itself; the worker pool shared by several requests is the subject of
    [Module Pool] below. *)
Definition run_in_threadpool {A} (job : M Pipeline A) : M Pipeline A := job.

End Monad.

Declare Scope py_scope.
Delimit Scope py_scope with py.
Notation "x <- m ;; k" := (bind m (fun x => k))
  (at level 61, m at next level, right associativity) : py_scope.
Notation "m ;;; k" := (bind m (fun _ => k))
  (at level 61, right associativity) : py_scope.

(** ** Collaborators

    The libraries the module calls.  [pipeline_run] stands for
    [pipeline.run(image, seed=1, formats=["gaussian", "mesh"])],
    [outputs_item outputs key] for the subscript [outputs[key][0]], which
    raises a [KeyError] or an [IndexError] when the entry is missing,
    [to_glb] for [postprocessing_utils.to_glb(gaussian, mesh, simplify=0.95,
    texture_size=1024)], [glb_export] for the [glb.export] call followed by
    [glb_buffer.getvalue()], and [unicode_encode_error s] for the text of
    the [UnicodeEncodeError] that [s.encode("latin-1")] raises. *)
Record Collaborators (Image Pipeline Outputs Repr Glb : Type) : Type := {
  cuda_is_available : bool;
  from_pretrained : string -> result Pipeline;
  pipeline_to : Pipeline -> string -> result unit;
  sanitize : string -> result string;
  image_open : bytes -> result Image;
  pipeline_run : Pipeline -> Image -> result Outputs;
  outputs_item : Outputs -> string -> result Repr;
  to_glb : Repr -> Repr -> result Glb;
  glb_export : Glb -> result bytes;
  unicode_encode_error : string -> string
}.
Arguments cuda_is_available {Image Pipeline Outputs Repr Glb} c.
Arguments from_pretrained {Image Pipeline Outputs Repr Glb} c name.
Arguments pipeline_to {Image Pipeline Outputs Repr Glb} c p device.
Arguments sanitize {Image Pipeline Outputs Repr Glb} c filename.
Arguments image_open {Image Pipeline Outputs Repr Glb} c data.
Arguments pipeline_run {Image Pipeline Outputs Repr Glb} c p image.
Arguments outputs_item {Image Pipeline Outputs Repr Glb} c outputs key.
Arguments to_glb {Image Pipeline Outputs Repr Glb} c gaussian mesh.
Arguments glb_export {Image Pipeline Outputs Repr Glb} c glb.
Arguments unicode_encode_error {Image Pipeline Outputs Repr Glb} c s.

(** [fastapi.UploadFile]: the client-supplied name and what [await
    file.read()] produces. *)
Record UploadFile : Type := {
  filename : string;
  read : result bytes
}.

(** [fastapi.responses]: [Response] and [JSONResponse] with a flat
    string-to-string JSON object as content. *)
Inductive HttpResponse : Type :=
| Response (status_code : Z) (content : bytes) (media_type : string)
           (headers : list (string * string))
| JSONResponse (status_code : Z) (content : list (string * string)).

Definition status_of (r : HttpResponse) : Z :=
  match r with
  | Response s _ _ _ => s
  | JSONResponse s _ => s
  end.

(** The artifact bytes carried by a response, if any. *)
Definition artifact_of (r : HttpResponse) : option bytes :=
  match r with
  | Response _ b _ _ => Some b
  | JSONResponse _ _ => None
  end.

(** The [error] entry of a JSON payload, if any. *)
Definition error_of (r : HttpResponse) : option string :=
  match r with
  | Response _ _ _ _ => None
  | JSONResponse _ [("error", e)] => Some e
  | JSONResponse _ _ => None
  end.

Definition header (name : string) (r : HttpResponse) : option string :=
  match r with
  | Response _ _ _ hs =>
      match find (fun kv => String.eqb (fst kv) name) hs with
      | Some kv => Some (snd kv)
      | None => None
      end
  | JSONResponse _ _ => None
  end.

Inductive Request : Type :=
| GetRoot
| PostConvert (file : UploadFile).

(** The double-quote character of the [Content-Disposition] f-string. *)
Definition dquote : string := String "034"%char EmptyString.

Section Model.
Context {Image Pipeline Outputs Repr Glb : Type}.
Variable env : Collaborators Image Pipeline Outputs Repr Glb.

Local Open Scope py_scope.

(** *** Start-up: lines 17-35 of the module body *)

Definition model_name : string := "microsoft/TRELLIS-image-large".

Definition cuda_warning : list Event :=
  [EvPrint "⚠️ WARNING: CUDA not detected. TRELLIS requires an NVIDIA GPU to run.";
   EvPrint "If you are on a Mac, this will likely fail or require a specific 'mps' fork."].

Definition load_failed (e : string) : Event :=
  EvPrint ("❌ Model Load Failed: " ++ e).

(** [if not torch.cuda.is_available(): ... device = "cpu" else: device = "cuda"] *)
Definition select_device : string * list Event :=
  if negb (cuda_is_available env)
  then ("cpu", cuda_warning)
  else ("cuda", []).

(** [try: pipeline = from_pretrained(...); pipeline.to(device)
     except Exception as e: print(...); pipeline = None] *)
Definition load_pipeline (dev : string) : option Pipeline * list Event :=
  match from_pretrained env model_name with
  | Ok p =>
      match pipeline_to env p dev with
      | Ok _ => (Some p, [EvFromPretrained model_name; EvPipelineTo dev])
      | Raise e =>
          (None, [EvFromPretrained model_name; EvPipelineTo dev; load_failed e])
      end
  | Raise e => (None, [EvFromPretrained model_name; load_failed e])
  end.

Definition startup : World Pipeline :=
  let '(dev, t1) := select_device in
  let '(pl, t2) := load_pipeline dev in
  {| globals := {| device := dev; pipeline := pl |};
     trace := [EvPrint "⏳ Loading Model..."] ++ t1 ++ t2 |}.

(** *** [root] *)

Definition root : M Pipeline (list (string * string)) :=
  g <- get_globals ;;
  ret [("status", "✅ Backend is running!"); ("device", device g)].

(** *** [process_image_to_glb_bytes] *)

Definition process_image_to_glb_bytes (image : Image) : M Pipeline bytes :=
  g <- get_globals ;;
  match pipeline g with
  | None => raise "Model is not loaded."
  | Some p =>
      outputs <- call EvPipelineRun (pipeline_run env p image) ;;
      gaussian <- lift (outputs_item env outputs "gaussian") ;;
      mesh <- lift (outputs_item env outputs "mesh") ;;
      glb <- call EvToGlb (to_glb env gaussian mesh) ;;
      glb_bytes <- call EvExport (glb_export env glb) ;;
      emit EvDelOutputs ;;;
      (if cuda_is_available env then emit EvEmptyCache else ret tt) ;;;
      ret glb_bytes
  end.

(** The calls of the clean-up that ends a job, lines 74-76. *)
Definition cleanup_events : list Event :=
  EvDelOutputs :: (if cuda_is_available env then [EvEmptyCache] else []).

(** *** [convert_image] *)

(** [base_name, _ = os.path.splitext(safe_name)]
    [if not base_name: base_name = "output"] *)
Definition derive_base_name (safe_name : string) : string :=
  let '(base_name, _) := PosixPath.splitext safe_name in
  if PyStr.is_empty base_name then "output" else base_name.

(** The file name proposed to the client: [f"{base_name}.glb"]. *)
Definition download_name (base_name : string) : string := base_name ++ ".glb".

(** [f'attachment; filename="{base_name}.glb"'] *)
Definition content_disposition (base_name : string) : string :=
  "attachment; filename=" ++ dquote ++ download_name base_name ++ dquote.

(** The strings starlette encodes as latin-1 while a [Response] is built:
    each header name and value in turn, then the media type for the
    content-type header.  (Header names are lowercased first; the one name
    used here is plain ASCII.) *)
Definition encoded_strings (media_type : string) (headers : list (string * string))
  : list string :=
  flat_map (fun kv => [fst kv; snd kv]) headers ++ [media_type].

(** [Response(content=..., media_type=..., headers=...)], with the default
    status 200: the first string that does not encode raises its
    [UnicodeEncodeError]. *)
Definition new_Response (content : bytes) (media_type : string)
  (headers : list (string * string)) : M Pipeline HttpResponse :=
  match find (fun s => negb (PyStr.latin1 s)) (encoded_strings media_type headers) with
  | Some s => raise (unicode_encode_error env s)
  | None => ret (Response 200 content media_type headers)
  end.

(** The [try] block, lines 86-103. *)
Definition convert_try (file : UploadFile) : M Pipeline HttpResponse :=
  let original_name := filename file in
  safe_name <- lift (sanitize env original_name) ;;
  let base_name := derive_base_name safe_name in
  image_data <- call EvFileRead (read file) ;;
  image <- run_in_threadpool (call EvImageOpen (image_open env image_data)) ;;
  glb_bytes <- run_in_threadpool (process_image_to_glb_bytes image) ;;
  new_Response glb_bytes "model/gltf-binary"
    [("Content-Disposition", content_disposition base_name)].

(** The [except Exception as e] clause, lines 104-106. *)
Definition convert_except (e : string) : M Pipeline HttpResponse :=
  print ("❌ Error: " ++ e) ;;;
  ret (JSONResponse 500 [("error", e)]).

Definition convert_image (file : UploadFile) : M Pipeline HttpResponse :=
  try_except (convert_try file) convert_except.

(** *** The application: one request after another *)

(** What the framework sends when a handler lets an exception escape. *)
Definition internal_server_error : HttpResponse :=
  Response 500 [] "text/plain" [].

(** FastAPI routing: a [dict] returned by [root] is sent as a 200 JSON
    body; a response object returned by [convert_image] is sent as it is. *)
Definition handle (r : Request) : World Pipeline -> HttpResponse * World Pipeline :=
  fun w =>
    match r with
    | GetRoot =>
        match root w with
        | (Ok d, w') => (JSONResponse 200 d, w')
        | (Raise _, w') => (internal_server_error, w')
        end
    | PostConvert file =>
        match convert_image file w with
        | (Ok resp, w') => (resp, w')
        | (Raise _, w') => (internal_server_error, w')
        end
    end.

Fixpoint serve (rs : list Request) (w : World Pipeline)
  : list HttpResponse * World Pipeline :=
  match rs with
  | [] => ([], w)
  | r :: rs' =>
      let '(resp, w') := handle r w in
      let '(resps, w'') := serve rs' w' in
      (resp :: resps, w'')
  end.

End Model.

(** ** Unsafe file-name characters

    Path separators, the characters reserved in file names, and the control
    characters below code point 32. *)
Definition reserved_chars : list ascii :=
  ["/"; "\"; ":"; "*"; "?"; "034"; "<"; ">"; "|"]%char.

Definition is_unsafe (c : ascii) : bool :=
  existsb (Ascii.eqb c) reserved_chars || (nat_of_ascii c <? 32)%nat.

(** [s] holds no unsafe character. *)
Fixpoint clean (s : string) : bool :=
  match s with
  | EmptyString => true
  | String a s' => negb (is_unsafe a) && clean s'
  end.

(** ** Sample collaborators

    A small concrete environment on which the model can be run: images,
    model outputs and meshes are the uploaded bytes themselves, the
    sanitizer drops the unsafe characters and then normalizes what is left,
    in the order the sanitize_filename package does, and the switches choose
    which collaborator raises. *)
Module Sample.

Fixpoint drop_unsafe (s : string) : string :=
  match s with
  | EmptyString => EmptyString
  | String a s' => if is_unsafe a then drop_unsafe s' else String a (drop_unsafe s')
  end.

(** The part of Unicode normalization form KD that matters below: the
    fullwidth solidus U+FF0F (bytes EF BC 8F) becomes ['/']. *)
Fixpoint fold_fullwidth (s : string) : string :=
  match s with
  | EmptyString => EmptyString
  | String a s' =>
      match a, s' with
      | "239"%char, String "188"%char (String "143"%char s'') =>
          String "/" (fold_fullwidth s'')
      | _, _ => String a (fold_fullwidth s')
      end
  end.

Record Switches : Type := {
  cuda : bool;
  load_ok : bool;
  run_ok : bool;
  export_ok : bool
}.

Definition env (sw : Switches) : Collaborators bytes unit bytes bytes bytes := {|
  cuda_is_available := cuda sw;
  from_pretrained := fun _ => if load_ok sw then Ok tt else Raise "weights not found";
  pipeline_to := fun _ _ => Ok tt;
  sanitize := fun name => Ok (fold_fullwidth (drop_unsafe name));
  image_open := fun data =>
    match data with
    | [] => Raise "cannot identify image file"
    | _ => Ok data
    end;
  pipeline_run := fun _ image => if run_ok sw then Ok image else Raise "CUDA out of memory";
  outputs_item := fun outputs _ => Ok outputs;
  to_glb := fun gaussian _ => Ok gaussian;
  glb_export := fun glb => if export_ok sw then Ok glb else Raise "export failed";
  unicode_encode_error := fun _ => "'latin-1' codec can't encode characters"
|}.

Definition all_ok : Switches :=
  {| cuda := true; load_ok := true; run_ok := true; export_ok := true |}.
Definition cpu_only : Switches :=
  {| cuda := false; load_ok := true; run_ok := true; export_ok := true |}.
Definition no_model : Switches :=
  {| cuda := true; load_ok := false; run_ok := true; export_ok := true |}.
Definition run_fails : Switches :=
  {| cuda := true; load_ok := true; run_ok := false; export_ok := true |}.
Definition export_fails : Switches :=
  {| cuda := true; load_ok := true; run_ok := true; export_ok := false |}.

Definition png : bytes := [x89; x50; x4e; x47].

Definition upload (name : string) (data : bytes) : UploadFile :=
  {| filename := name; read := Ok data |}.

(** The world right after start-up, and after one job on [png]. *)
Definition world (sw : Switches) : World unit := startup (env sw).

Definition after_job (sw : Switches) : World unit :=
  snd (process_image_to_glb_bytes (env sw) png (world sw)).

End Sample.

(** ** The worker pool shared by concurrent requests

    Every request runs [convert_image]; its two [run_in_threadpool] awaits
    hand the decode and the whole job runner to a worker of the pool and
    suspend the handler until the worker is done.  The phases below follow
    one request through the source; the state of the service is the list of
    the phases of the requests in flight.  [workers] is the capacity of the
    pool, which the module leaves at the framework's default. *)
Module Pool.

Inductive Phase : Type :=
| Accepted     (* event loop: lines 86-91, name derivation and body read *)
| Decoding     (* worker: Image.open, line 94 *)
| Decoded      (* event loop: between the two awaits *)
| Running      (* worker: inside pipeline.run, lines 56-60 *)
| Exporting    (* worker: to_glb and export, lines 62-71 *)
| Reclaiming   (* worker: del outputs and empty_cache, lines 74-76 *)
| Responded.   (* event loop: response returned, lines 99-106 *)

Definition in_worker (ph : Phase) : bool :=
  match ph with
  | Decoding | Running | Exporting | Reclaiming => true
  | _ => false
  end.

Definition is_running (ph : Phase) : bool :=
  match ph with Running => true | _ => false end.

(** Program order of one request.  A phase that can raise may also jump to
    [Responded], through the handler's [except] clause. *)
Inductive advance : Phase -> Phase -> Prop :=
| adv_submit_decode : advance Accepted Decoding
| adv_decoded : advance Decoding Decoded
| adv_submit_job : advance Decoded Running
| adv_run_done : advance Running Exporting
| adv_exported : advance Exporting Reclaiming
| adv_reclaimed : advance Reclaiming Responded
| adv_raise ph : ph <> Responded -> advance ph Responded.

(** A transition that hands work to the pool takes a worker. *)
Definition takes_worker (ph ph' : Phase) : bool :=
  negb (in_worker ph) && in_worker ph'.

Definition busy (st : list Phase) : nat := length (filter in_worker st).
Definition running (st : list Phase) : nat := length (filter is_running st).

(** One request advances; it may enter the pool only while a worker is
    free.  The source puts no other condition on entering [pipeline.run]. *)
Inductive step (workers : nat) : list Phase -> list Phase -> Prop :=
| step_job before ph ph' after :
    advance ph ph' ->
    (takes_worker ph ph' = true -> (busy (before ++ ph :: after) < workers)%nat) ->
    step workers (before ++ ph :: after) (before ++ ph' :: after).

Inductive reachable (workers : nat) (st0 : list Phase) : list Phase -> Prop :=
| reach_init : reachable workers st0 st0
| reach_step st st' :
    reachable workers st0 st -> step workers st st' -> reachable workers st0 st'.

(** [n] requests submitted together. *)
Definition submitted (n : nat) : list Phase := repeat Accepted n.

(** The serialization the inference call would need: never two requests
    inside [pipeline.run]. *)
Definition serialized (workers n : nat) : Prop :=
  forall st, reachable workers (submitted n) st -> (running st <= 1)%nat.

End Pool.

(** ** Measures over a session

    What is counted when a sequence of requests is served: the lines
    printed, the conversions requested, and the answers by kind. *)

Definition is_print (ev : Event) : bool :=
  match ev with EvPrint _ => true | _ => false end.

Definition prints (t : list Event) : nat := length (filter is_print t).

Definition is_convert (r : Request) : bool :=
  match r with PostConvert _ => true | GetRoot => false end.

Definition conversions (rs : list Request) : nat := length (filter is_convert rs).

(** A binary answer with status 200: the artifact of a conversion. *)
Definition is_success (r : HttpResponse) : bool :=
  match r with
  | Response s _ _ _ => s =? 200
  | JSONResponse _ _ => false
  end.

Definition is_failure (r : HttpResponse) : bool := status_of r =? 500.

Definition successes (resps : list HttpResponse) : nat :=
  length (filter is_success resps).

Definition failures (resps : list HttpResponse) : nat :=
  length (filter is_failure resps).

(** The calls of a conversion that runs to the end of the export, in the
    order lines 91, 94, 56, 62 and 70 issue them. *)
Definition job_calls : list Event :=
  [EvFileRead; EvImageOpen; EvPipelineRun; EvToGlb; EvExport].

(** The answer to a conversion that issued the calls [issued] and then
    raised [e], and the world it leaves: the [except] clause of lines
    104-106 prints the error and answers 500 with it. *)
Definition failed {Pipeline : Type} (w : World Pipeline) (issued : list Event)
  (e : string) : HttpResponse * World Pipeline :=
  (JSONResponse 500 [("error", e)],
   logged w (issued ++ [EvPrint ("❌ Error: " ++ e)])).

(** ** File names made of dots *)

(** [k] dots. *)
Fixpoint dots (k : nat) : string :=
  match k with
  | O => EmptyString
  | S k' => String "." (dots k')
  end.

(** [s] holds nothing but dots. *)
Fixpoint all_dots (s : string) : bool :=
  match s with
  | EmptyString => true
  | String a s' => Ascii.eqb a "." && all_dots s'
  end.

(** * Properties *)

(** ** Strings and [splitext] *)

Section StringFacts.
Import PyStr.

Lemma take_drop (k : nat) (s : string) : take k s ++ drop k s = s.
Proof.
  revert s; induction k as [|k IH]; intros [|a s]; simpl; try reflexivity.
  now rewrite IH.
Qed.

Lemma drop_drop (j k : nat) (s : string) : drop j (drop k s) = drop (k + j) s.
Proof.
  revert s; induction k as [|k IH]; intros s; simpl; [reflexivity|].
  destruct s as [|a s]; [now destruct j | apply IH].
Qed.

Lemma mem_drop (c : ascii) (k : nat) (s : string) :
  mem c s = false -> mem c (drop k s) = false.
Proof.
  revert s; induction k as [|k IH]; intros [|a s]; simpl; auto.
  intros H; apply orb_false_iff in H; apply IH, H.
Qed.

Lemma mem_append (c : ascii) (s t : string) :
  mem c (s ++ t) = mem c s || mem c t.
Proof.
  induction s as [|a s IH]; simpl; [reflexivity|].
  now rewrite IH, orb_assoc.
Qed.

Lemma clean_append (s t : string) : clean (s ++ t) = clean s && clean t.
Proof.
  induction s as [|a s IH]; simpl; [reflexivity|].
  now rewrite IH, andb_assoc.
Qed.

Lemma clean_take (k : nat) (s : string) : clean s = true -> clean (take k s) = true.
Proof.
  intros H; rewrite <- (take_drop k s), clean_append in H.
  now apply andb_true_iff in H.
Qed.

Lemma length_append (s t : string) :
  String.length (s ++ t) = (String.length s + String.length t)%nat.
Proof. induction s as [|a s IH]; simpl; [reflexivity | now rewrite IH]. Qed.

Lemma drop_length_append (s t : string) : drop (String.length s) (s ++ t) = t.
Proof. induction s as [|a s IH]; simpl; [now destruct t | exact IH]. Qed.

(** Appending a suffix makes the result end with it. *)
Lemma endswith_append (s suffix : string) : endswith suffix (s ++ suffix) = true.
Proof.
  unfold endswith; rewrite length_append.
  replace (String.length s + String.length suffix - String.length suffix)%nat
    with (String.length s) by lia.
  rewrite drop_length_append, String.eqb_refl; simpl.
  apply Nat.leb_le; lia.
Qed.

(** [rfind] never goes below its starting value. *)
Lemma rfind_from_ge (c : ascii) (s : string) (i last : Z) :
  last <= i -> last <= rfind_from c s i last.
Proof.
  revert i last; induction s as [|a s IH]; intros i last Hle; simpl; [lia|].
  destruct (Ascii.eqb a c).
  - specialize (IH (i + 1) i); lia.
  - specialize (IH (i + 1) last); lia.
Qed.

(** What [rfind] returns: either nothing was found, or the suffix starting
    at the returned index is [c] followed by a [c]-free rest. *)
Lemma rfind_from_spec (c : ascii) (s : string) (i last : Z) :
  last < i ->
  (rfind_from c s i last = last /\ mem c s = false) \/
  (i <= rfind_from c s i last /\
   exists rest, drop (Z.to_nat (rfind_from c s i last - i)) s = String c rest
                /\ mem c rest = false).
Proof.
  revert i last; induction s as [|a s IH]; intros i last Hlt; simpl.
  - left; split; reflexivity.
  - destruct (Ascii.eqb a c) eqn:Hac.
    + apply Ascii.eqb_eq in Hac; subst a.
      destruct (IH (i + 1) i ltac:(lia)) as [[Hr Hm] | [Hge [rest [Hd Hm]]]].
      * right; rewrite Hr; split; [lia|].
        exists s; replace (i - i) with 0 by lia; simpl; auto.
      * right; split; [lia|]; exists rest; split; [|exact Hm].
        replace (Z.to_nat (rfind_from c s (i + 1) i - i))
          with (S (Z.to_nat (rfind_from c s (i + 1) i - (i + 1)))) by lia.
        exact Hd.
    + destruct (IH (i + 1) last ltac:(lia)) as [[Hr Hm] | [Hge [rest [Hd Hm]]]].
      * left; split; [exact Hr | exact Hm].
      * right; split; [lia|]; exists rest; split; [|exact Hm].
        replace (Z.to_nat (rfind_from c s (i + 1) last - i))
          with (S (Z.to_nat (rfind_from c s (i + 1) last - (i + 1)))) by lia.
        exact Hd.
Qed.

Lemma rfind_spec (c : ascii) (s : string) :
  (rfind c s = -1 /\ mem c s = false) \/
  (0 <= rfind c s /\
   exists rest, drop (Z.to_nat (rfind c s)) s = String c rest /\ mem c rest = false).
Proof.
  unfold rfind.
  destruct (rfind_from_spec c s 0 (-1) ltac:(lia)) as [H | [Hge [rest [Hd Hm]]]].
  - left; exact H.
  - right; split; [exact Hge|]; exists rest.
    now rewrite Z.sub_0_r in Hd.
Qed.

Lemma skip_leading_dots_pos (p : string) (i n : nat) :
  PosixPath.skip_leading_dots p i n = true -> (0 < n)%nat.
Proof. destruct n; simpl; [discriminate | lia]. Qed.

(** The two halves of [splitext] always concatenate to the argument. *)
Lemma splitext_append (p : string) :
  fst (PosixPath.splitext p) ++ snd (PosixPath.splitext p) = p.
Proof.
  unfold PosixPath.splitext.
  destruct (_ && _); simpl; [apply take_drop|].
  clear; induction p as [|a p IH]; simpl; [reflexivity | now rewrite IH].
Qed.

(** The root is empty only for the empty path. *)
Lemma splitext_root_empty (p : string) :
  fst (PosixPath.splitext p) = EmptyString <-> p = EmptyString.
Proof.
  split; [|intros ->; reflexivity].
  unfold PosixPath.splitext.
  destruct (_ && _) eqn:Hc; simpl; [|auto].
  apply andb_true_iff in Hc; destruct Hc as [_ Hs].
  apply skip_leading_dots_pos in Hs.
  pose proof (rfind_from_ge PosixPath.sep p 0 (-1) ltac:(lia)) as Hsep.
  fold (rfind PosixPath.sep p) in Hsep.
  destruct p as [|a p]; [reflexivity|].
  destruct (Z.to_nat (rfind PosixPath.extsep (String a p))) eqn:Hn; [lia|].
  simpl; discriminate.
Qed.

(** The extension is empty, or one dot followed by characters among which
    there is neither a dot nor a path separator. *)
Lemma splitext_ext_shape (p : string) :
  snd (PosixPath.splitext p) = EmptyString \/
  exists e, snd (PosixPath.splitext p) = String PosixPath.extsep e
            /\ mem PosixPath.extsep e = false /\ mem PosixPath.sep e = false.
Proof.
  unfold PosixPath.splitext.
  destruct (_ && _) eqn:Hc; simpl; [|now left].
  right.
  apply andb_true_iff in Hc; destruct Hc as [Hgt _].
  apply Z.gtb_lt in Hgt.
  destruct (rfind_spec PosixPath.extsep p) as [[Hd _] | [Hd0 [e [Hd Hm]]]].
  - pose proof (rfind_from_ge PosixPath.sep p 0 (-1) ltac:(lia)) as Hsep.
    fold (rfind PosixPath.sep p) in Hsep; lia.
  - exists e; split; [exact Hd|]; split; [exact Hm|].
    destruct (rfind_spec PosixPath.sep p) as [[_ Hnone] | [Hs0 [r [Hs Hsm]]]].
    + apply (mem_drop _ (Z.to_nat (rfind PosixPath.extsep p))) in Hnone.
      rewrite Hd in Hnone; exact Hnone.
    + assert (Hdd : drop (Z.to_nat (rfind PosixPath.extsep p)) p
                    = drop (Z.to_nat (rfind PosixPath.extsep p - rfind PosixPath.sep p - 1)) r).
      { replace (Z.to_nat (rfind PosixPath.extsep p))
          with (Z.to_nat (rfind PosixPath.sep p)
                + S (Z.to_nat (rfind PosixPath.extsep p - rfind PosixPath.sep p - 1)))%nat
          by lia.
        rewrite <- drop_drop, Hs; reflexivity. }
      apply (mem_drop _ (Z.to_nat (rfind PosixPath.extsep p - rfind PosixPath.sep p - 1))) in Hsm.
      rewrite <- Hdd, Hd in Hsm; exact Hsm.
Qed.

(** The root holds only characters of the argument. *)
Lemma splitext_root_clean (p : string) :
  clean p = true -> clean (fst (PosixPath.splitext p)) = true.
Proof.
  intros H; rewrite <- (splitext_append p), clean_append in H.
  now apply andb_true_iff in H.
Qed.

End StringFacts.

Example splitext_png : PosixPath.splitext "evil.png" = ("evil", ".png").
Proof. reflexivity. Qed.

Example splitext_two_ext : PosixPath.splitext "model.tar.gz" = ("model.tar", ".gz").
Proof. reflexivity. Qed.

Example splitext_dotfile : PosixPath.splitext ".bashrc" = (".bashrc", "").
Proof. reflexivity. Qed.

Example splitext_dir_dot : PosixPath.splitext "a.b/c" = ("a.b/c", "").
Proof. reflexivity. Qed.

Example splitext_trailing_dot : PosixPath.splitext "a." = ("a", ".").
Proof. reflexivity. Qed.

(** ** The call trace *)

Lemma logged_logged {Pipeline : Type} (w : World Pipeline) (l1 l2 : list Event) :
  logged (logged w l1) l2 = logged w (l1 ++ l2).
Proof. unfold logged; simpl; now rewrite <- app_assoc. Qed.

Lemma logged_nil {Pipeline : Type} (w : World Pipeline) : logged w [] = w.
Proof. destruct w; unfold logged; simpl; now rewrite app_nil_r. Qed.

Lemma calls_app (ev : Event) (l1 l2 : list Event) :
  calls ev (l1 ++ l2) = (calls ev l1 + calls ev l2)%nat.
Proof. apply count_occ_app. Qed.

Lemma calls_logged {Pipeline : Type} (ev : Event) (w : World Pipeline) (l : list Event) :
  calls ev (trace (logged w l)) = (calls ev (trace w) + calls ev l)%nat.
Proof. apply calls_app. Qed.

(** ** The job runner and the handlers *)

Section Properties.
Context {Image Pipeline Outputs Repr Glb : Type}.
Variable env : Collaborators Image Pipeline Outputs Repr Glb.

Local Open Scope py_scope.

(** Every path through [process_image_to_glb_bytes], with the calls it
    issues. *)
Lemma process_paths (image : Image) (w : World Pipeline) :
  process_image_to_glb_bytes env image w =
  match pipeline (globals w) with
  | None => (Raise "Model is not loaded.", w)
  | Some p =>
      match pipeline_run env p image with
      | Raise e => (Raise e, logged w [EvPipelineRun])
      | Ok outputs =>
          match outputs_item env outputs "gaussian" with
          | Raise e => (Raise e, logged w [EvPipelineRun])
          | Ok gaussian =>
          match outputs_item env outputs "mesh" with
          | Raise e => (Raise e, logged w [EvPipelineRun])
          | Ok mesh =>
          match to_glb env gaussian mesh with
          | Raise e => (Raise e, logged w [EvPipelineRun; EvToGlb])
          | Ok glb =>
              match glb_export env glb with
              | Raise e => (Raise e, logged w [EvPipelineRun; EvToGlb; EvExport])
              | Ok glb_bytes =>
                  (Ok glb_bytes,
                   logged w ([EvPipelineRun; EvToGlb; EvExport] ++ cleanup_events env))
              end
          end
          end
          end
      end
  end.
Proof.
  unfold process_image_to_glb_bytes, cleanup_events, bind, get_globals, call,
    lift, emit, ret, raise, bind.
  destruct (pipeline (globals w)) as [p|]; [|reflexivity].
  destruct (pipeline_run env p image) as [outputs|e]; [|reflexivity].
  destruct (outputs_item env outputs "gaussian") as [gaussian|e]; [|reflexivity].
  destruct (outputs_item env outputs "mesh") as [mesh|e]; [|reflexivity].
  destruct (to_glb env gaussian mesh) as [glb|e]; [|now rewrite logged_logged].
  destruct (glb_export env glb) as [b|e]; [|now rewrite !logged_logged].
  destruct (cuda_is_available env); now rewrite !logged_logged.
Qed.

(** The job runner never rebinds the module globals. *)
Lemma process_globals (image : Image) (w : World Pipeline) :
  globals (snd (process_image_to_glb_bytes env image w)) = globals w.
Proof.
  rewrite process_paths.
  repeat match goal with |- context [match ?x with _ => _ end] => destruct x end;
    reflexivity.
Qed.

(** A successful job issued exactly the calls of the success path. *)
Lemma process_ok_inv (image : Image) (w w' : World Pipeline) (b : bytes) :
  process_image_to_glb_bytes env image w = (Ok b, w') ->
  exists p outputs gaussian mesh glb,
    pipeline (globals w) = Some p /\
    pipeline_run env p image = Ok outputs /\
    outputs_item env outputs "gaussian" = Ok gaussian /\
    outputs_item env outputs "mesh" = Ok mesh /\
    to_glb env gaussian mesh = Ok glb /\
    glb_export env glb = Ok b /\
    w' = logged w ([EvPipelineRun; EvToGlb; EvExport] ++ cleanup_events env).
Proof.
  rewrite process_paths.
  destruct (pipeline (globals w)) as [p|]; [|discriminate].
  destruct (pipeline_run env p image) as [outputs|e] eqn:Hr; [|discriminate].
  destruct (outputs_item env outputs "gaussian") as [gaussian|e] eqn:Hga; [|discriminate].
  destruct (outputs_item env outputs "mesh") as [mesh|e] eqn:Hme; [|discriminate].
  destruct (to_glb env gaussian mesh) as [glb|e] eqn:Hg; [|discriminate].
  destruct (glb_export env glb) as [b'|e] eqn:He; [|discriminate].
  intros H; injection H as <- <-.
  exists p, outputs, gaussian, mesh, glb; repeat split; auto.
Qed.

(** Building the response of line 99: the header name and the media type
    always encode, so all depends on the header value. *)
Lemma new_Response_paths (content : bytes) (value : string) (w : World Pipeline) :
  new_Response env content "model/gltf-binary" [("Content-Disposition", value)] w =
  if PyStr.latin1 value
  then (Ok (Response 200 content "model/gltf-binary" [("Content-Disposition", value)]), w)
  else (Raise (unicode_encode_error env value), w).
Proof.
  unfold new_Response, encoded_strings; cbn [flat_map fst snd app find].
  replace (PyStr.latin1 "Content-Disposition") with true by reflexivity.
  replace (PyStr.latin1 "model/gltf-binary") with true by reflexivity.
  destruct (PyStr.latin1 value); reflexivity.
Qed.

(** Every path through the [try] block of [convert_image]. *)
Lemma convert_try_paths (file : UploadFile) (w : World Pipeline) :
  convert_try env file w =
  match sanitize env (filename file) with
  | Raise e => (Raise e, w)
  | Ok safe_name =>
      match read file with
      | Raise e => (Raise e, logged w [EvFileRead])
      | Ok image_data =>
          match image_open env image_data with
          | Raise e => (Raise e, logged w [EvFileRead; EvImageOpen])
          | Ok image =>
              match process_image_to_glb_bytes env image
                      (logged w [EvFileRead; EvImageOpen]) with
              | (Raise e, w') => (Raise e, w')
              | (Ok glb_bytes, w') =>
                  if PyStr.latin1 (content_disposition (derive_base_name safe_name))
                  then (Ok (Response 200 glb_bytes "model/gltf-binary"
                              [("Content-Disposition",
                                content_disposition (derive_base_name safe_name))]),
                        w')
                  else (Raise (unicode_encode_error env
                                 (content_disposition (derive_base_name safe_name))),
                        w')
              end
          end
      end
  end.
Proof.
  unfold convert_try, run_in_threadpool, lift, call, emit, bind, ret, raise.
  destruct (sanitize env (filename file)) as [safe|e]; [|reflexivity].
  destruct (read file) as [data|e]; [|reflexivity].
  destruct (image_open env data) as [image|e]; rewrite logged_logged; [|reflexivity].
  simpl app.
  destruct (process_image_to_glb_bytes env image (logged w [EvFileRead; EvImageOpen]))
    as [[b|e] w']; [apply new_Response_paths | reflexivity].
Qed.

Lemma convert_image_paths (file : UploadFile) (w : World Pipeline) :
  convert_image env file w =
  match convert_try env file w with
  | (Ok resp, w') => (Ok resp, w')
  | (Raise e, w') =>
      (Ok (JSONResponse 500 [("error", e)]), logged w' [EvPrint ("❌ Error: " ++ e)])
  end.
Proof.
  unfold convert_image, try_except, convert_except, print, emit, bind, ret.
  destruct (convert_try env file w) as [[resp|e] w']; reflexivity.
Qed.

(** The [try] block leaves the globals alone and only extends the trace. *)
Lemma convert_try_globals (file : UploadFile) (w : World Pipeline) :
  globals (snd (convert_try env file w)) = globals w.
Proof.
  rewrite convert_try_paths.
  destruct (sanitize env (filename file)) as [safe|e]; [|reflexivity].
  destruct (read file) as [data|e]; [|reflexivity].
  destruct (image_open env data) as [image|e]; [|reflexivity].
  pose proof (process_globals image (logged w [EvFileRead; EvImageOpen])) as H.
  destruct (process_image_to_glb_bytes env image (logged w [EvFileRead; EvImageOpen]))
    as [[b|e] w']; [|exact H].
  destruct (PyStr.latin1 _); exact H.
Qed.

Lemma convert_image_globals (file : UploadFile) (w : World Pipeline) :
  globals (snd (convert_image env file w)) = globals w.
Proof.
  rewrite convert_image_paths.
  pose proof (convert_try_globals file w) as H.
  destruct (convert_try env file w) as [[resp|e] w']; exact H.
Qed.

Lemma handle_globals (r : Request) (w : World Pipeline) :
  globals (snd (handle env r w)) = globals w.
Proof.
  destruct r as [|file]; simpl.
  - reflexivity.
  - pose proof (convert_image_globals file w) as H.
    destruct (convert_image env file w) as [[resp|e] w']; exact H.
Qed.

Lemma serve_globals (rs : list Request) (w : World Pipeline) :
  globals (snd (serve env rs w)) = globals w.
Proof.
  revert w; induction rs as [|r rs IH]; intros w; simpl; [reflexivity|].
  pose proof (handle_globals r w) as Hh.
  destruct (handle env r w) as [resp w1]; simpl in Hh.
  specialize (IH w1).
  destruct (serve env rs w1) as [resps w2]; simpl in *; congruence.
Qed.

(** Calls of [pipeline.run] issued by the [try] block: none unless the
    decoded image reached the job runner with a pipeline loaded. *)
Lemma convert_try_runs (file : UploadFile) (w : World Pipeline) :
  calls EvPipelineRun (trace (snd (convert_try env file w)))
  = calls EvPipelineRun (trace w)
  \/ exists data image p,
       read file = Ok data /\ image_open env data = Ok image
       /\ pipeline (globals w) = Some p.
Proof.
  rewrite convert_try_paths.
  destruct (sanitize env (filename file)) as [safe|e]; [|now left].
  destruct (read file) as [data|e] eqn:Hread;
    [|left; simpl; rewrite calls_app; simpl; lia].
  destruct (image_open env data) as [image|e] eqn:Hopen;
    [|left; simpl; rewrite calls_app; simpl; lia].
  rewrite process_paths; simpl.
  destruct (pipeline (globals w)) as [p|] eqn:Hp.
  - right; exists data, image, p; auto.
  - left; simpl; rewrite calls_app; simpl; lia.
Qed.

Lemma handle_convert (file : UploadFile) (w : World Pipeline) :
  handle env (PostConvert file) w =
  match convert_try env file w with
  | (Ok resp, w') => (resp, w')
  | (Raise e, w') =>
      (JSONResponse 500 [("error", e)], logged w' [EvPrint ("❌ Error: " ++ e)])
  end.
Proof.
  simpl; rewrite convert_image_paths.
  destruct (convert_try env file w) as [[resp|e] w']; reflexivity.
Qed.

(** The print of the [except] clause is not a [pipeline.run] call. *)
Lemma handle_convert_runs (file : UploadFile) (w : World Pipeline) :
  calls EvPipelineRun (trace (snd (handle env (PostConvert file) w)))
  = calls EvPipelineRun (trace (snd (convert_try env file w))).
Proof.
  rewrite handle_convert.
  destruct (convert_try env file w) as [[resp|e] w']; simpl; [reflexivity|].
  rewrite calls_app; simpl; lia.
Qed.

(** *** C1: clean-up at the end of a job *)

(** C1 (as amended).  A job that runs to completion releases the model
    outputs exactly once and, when the accelerator is available, issues the
    cache-reclaim call exactly once, both after the export; without an
    accelerator no reclaim call is issued.  Nothing is stated here about a
    job that raises. *)
Theorem cleanup_after_successful_job
  (image : Image) (w w' : World Pipeline) (glb_bytes : bytes) :
  process_image_to_glb_bytes env image w = (Ok glb_bytes, w') ->
  trace w' = (trace w ++ [EvPipelineRun; EvToGlb; EvExport; EvDelOutputs]
                      ++ (if cuda_is_available env then [EvEmptyCache] else []))%list
  /\ calls EvDelOutputs (trace w') = S (calls EvDelOutputs (trace w))
  /\ calls EvEmptyCache (trace w')
     = (calls EvEmptyCache (trace w) + if cuda_is_available env then 1 else 0)%nat.
Proof.
  intros H.
  apply process_ok_inv in H as (p & outputs & gaussian & mesh & glb & H).
  destruct H as (_ & _ & _ & _ & _ & _ & ->).
  unfold cleanup_events; split; [reflexivity|].
  rewrite !calls_logged.
  destruct (cuda_is_available env); simpl; split; lia.
Qed.

(** A job whose [pipeline.run] raises issues neither clean-up call. *)
Lemma run_failure_skips_cleanup
  (image : Image) (w : World Pipeline) (p : Pipeline) (e : string) :
  pipeline (globals w) = Some p ->
  pipeline_run env p image = Raise e ->
  process_image_to_glb_bytes env image w = (Raise e, logged w [EvPipelineRun]).
Proof. intros Hp Hr; rewrite process_paths, Hp, Hr; reflexivity. Qed.

(** A job whose export raises issues neither clean-up call. *)
Lemma export_failure_skips_cleanup
  (image : Image) (w : World Pipeline) (p : Pipeline)
  (outputs : Outputs) (gaussian mesh : Repr) (glb : Glb) (e : string) :
  pipeline (globals w) = Some p ->
  pipeline_run env p image = Ok outputs ->
  outputs_item env outputs "gaussian" = Ok gaussian ->
  outputs_item env outputs "mesh" = Ok mesh ->
  to_glb env gaussian mesh = Ok glb ->
  glb_export env glb = Raise e ->
  process_image_to_glb_bytes env image w
  = (Raise e, logged w [EvPipelineRun; EvToGlb; EvExport]).
Proof.
  intros Hp Hr Hga Hme Hg He.
  rewrite process_paths, Hp, Hr, Hga, Hme, Hg, He; reflexivity.
Qed.

(** *** C3: no pipeline *)

(** Without a pipeline the conversion endpoint answers 500 with an error
    payload. *)
Lemma no_pipeline_convert_500 (file : UploadFile) (w : World Pipeline) :
  pipeline (globals w) = None ->
  exists e, fst (handle env (PostConvert file) w) = JSONResponse 500 [("error", e)].
Proof.
  intros Hp; rewrite handle_convert, convert_try_paths.
  destruct (sanitize env (filename file)) as [safe|e]; [|now exists e].
  destruct (read file) as [data|e]; [|now exists e].
  destruct (image_open env data) as [image|e]; [|now exists e].
  rewrite process_paths; simpl; rewrite Hp; now eexists.
Qed.

(** C3.  While the pipeline is absent the job runner raises the
    model-not-loaded error without issuing any call, and [POST /convert]
    answers 500 with an error payload for every upload, without a
    [pipeline.run] call; for an upload that sanitizes, reads and decodes,
    the payload is that error. *)
Theorem unavailable_pipeline_fails_fast (w : World Pipeline) :
  pipeline (globals w) = None ->
  (forall image,
      process_image_to_glb_bytes env image w = (Raise "Model is not loaded.", w))
  /\ (forall file,
        exists e,
          fst (handle env (PostConvert file) w) = JSONResponse 500 [("error", e)]
          /\ calls EvPipelineRun (trace (snd (handle env (PostConvert file) w)))
             = calls EvPipelineRun (trace w)
          /\ (forall safe data image,
                 sanitize env (filename file) = Ok safe ->
                 read file = Ok data ->
                 image_open env data = Ok image ->
                 e = "Model is not loaded.")).
Proof.
  intros Hp; split.
  - intros image; rewrite process_paths, Hp; reflexivity.
  - intros file.
    pose proof (handle_convert_runs file w) as Hruns.
    rewrite handle_convert in *.
    rewrite convert_try_paths in *.
    destruct (sanitize env (filename file)) as [safe|e] eqn:Hs.
    2:{ exists e; simpl in *; repeat split; auto. intros; discriminate. }
    destruct (read file) as [data|e] eqn:Hread.
    2:{ exists e; simpl in *; repeat split; auto.
        - rewrite Hruns, calls_app; simpl; lia.
        - intros; discriminate. }
    destruct (image_open env data) as [image|e] eqn:Hopen.
    2:{ exists e; simpl in *; repeat split; auto.
        - rewrite Hruns, calls_app; simpl; lia.
        - intros ? ? ? _ Hd Ho; congruence. }
    rewrite process_paths in *; simpl in *; rewrite Hp in *; simpl in *.
    exists "Model is not loaded."; repeat split; auto.
    rewrite Hruns, calls_app; simpl; lia.
Qed.

(** *** C5: the response of a successful conversion *)

(** When the upload sanitizes, reads and decodes, the job returns its bytes
    and the header value encodes as latin-1, [POST /convert] answers 200
    with exactly those bytes, media type model/gltf-binary and the
    Content-Disposition header attachment; filename=<quote>base_name.glb<quote>. *)
Lemma convert_success_response
  (file : UploadFile) (w w' : World Pipeline)
  (safe_name : string) (image_data glb_bytes : bytes) (image : Image) :
  sanitize env (filename file) = Ok safe_name ->
  read file = Ok image_data ->
  image_open env image_data = Ok image ->
  process_image_to_glb_bytes env image (logged w [EvFileRead; EvImageOpen])
  = (Ok glb_bytes, w') ->
  PyStr.latin1 (content_disposition (derive_base_name safe_name)) = true ->
  handle env (PostConvert file) w
  = (Response 200 glb_bytes "model/gltf-binary"
       [("Content-Disposition",
         "attachment; filename=" ++ dquote
           ++ (derive_base_name safe_name ++ ".glb") ++ dquote)],
     w').
Proof.
  intros Hs Hr Ho Hp Hl.
  rewrite handle_convert, convert_try_paths, Hs, Hr, Ho, Hp, Hl; reflexivity.
Qed.

(** C5 fails on a file name outside latin-1.  When the upload sanitizes,
    reads and decodes and the job returns its bytes, but the
    Content-Disposition value holds a character above U+00FF, building the
    response on line 99 raises after the job and its clean-up have run, and
    [POST /convert] answers 500 with the text of that error, printed once,
    instead of 200 with the artifact. *)
Theorem unicode_name_answers_500
  (file : UploadFile) (w w' : World Pipeline)
  (safe_name : string) (image_data glb_bytes : bytes) (image : Image) :
  sanitize env (filename file) = Ok safe_name ->
  read file = Ok image_data ->
  image_open env image_data = Ok image ->
  process_image_to_glb_bytes env image (logged w [EvFileRead; EvImageOpen])
  = (Ok glb_bytes, w') ->
  PyStr.latin1 ("attachment; filename=" ++ dquote
                  ++ (derive_base_name safe_name ++ ".glb") ++ dquote) = false ->
  handle env (PostConvert file) w
  = (JSONResponse 500
       [("error",
         unicode_encode_error env
           ("attachment; filename=" ++ dquote
              ++ (derive_base_name safe_name ++ ".glb") ++ dquote))],
     logged w'
       [EvPrint ("❌ Error: "
                 ++ unicode_encode_error env
                      ("attachment; filename=" ++ dquote
                         ++ (derive_base_name safe_name ++ ".glb") ++ dquote))])
  /\ status_of (fst (handle env (PostConvert file) w)) <> 200
  /\ artifact_of (fst (handle env (PostConvert file) w)) = None.
Proof.
  intros Hs Hr Ho Hp Hl.
  assert (Hh : handle env (PostConvert file) w
               = (JSONResponse 500
                    [("error",
                      unicode_encode_error env
                        (content_disposition (derive_base_name safe_name)))],
                  logged w'
                    [EvPrint ("❌ Error: "
                              ++ unicode_encode_error env
                                   (content_disposition (derive_base_name safe_name)))])).
  { rewrite handle_convert, convert_try_paths, Hs, Hr, Ho, Hp.
    unfold content_disposition, download_name; rewrite Hl; reflexivity. }
  rewrite Hh; split; [reflexivity|]; split; [discriminate | reflexivity].
Qed.

(** A 200 answer of the [try] block carries the bytes the export returned. *)
Lemma convert_try_ok_inv (file : UploadFile) (w w' : World Pipeline) (resp : HttpResponse) :
  convert_try env file w = (Ok resp, w') ->
  exists safe_name glb glb_bytes,
    sanitize env (filename file) = Ok safe_name
    /\ glb_export env glb = Ok glb_bytes
    /\ resp = Response 200 glb_bytes "model/gltf-binary"
                [("Content-Disposition",
                  content_disposition (derive_base_name safe_name))].
Proof.
  rewrite convert_try_paths.
  destruct (sanitize env (filename file)) as [safe|e]; [|discriminate].
  destruct (read file) as [data|e]; [|discriminate].
  destruct (image_open env data) as [image|e]; [|discriminate].
  destruct (process_image_to_glb_bytes env image (logged w [EvFileRead; EvImageOpen]))
    as [[b|e] w1] eqn:Hp; [|discriminate].
  destruct (PyStr.latin1 _); [|discriminate].
  intros H; injection H as <- <-.
  apply process_ok_inv in Hp as (p & outputs & gaussian & mesh & glb & Hp).
  destruct Hp as (_ & _ & _ & _ & _ & He & _).
  exists safe, glb, b; auto.
Qed.

(** *** C6: every failure becomes a 500 *)

(** C6.  [convert_image] never raises, so nothing reaches the framework.
    Its answer is either the 200 response of the [try] block, which carries
    the complete bytes returned by the export and no error, or, when
    anything inside the [try] block raised [e], the 500 JSON payload whose
    only entry is error: str(e), which carries no artifact bytes. *)
Theorem convert_failures_become_500 (file : UploadFile) (w : World Pipeline) :
  exists resp w',
    convert_image env file w = (Ok resp, w')
    /\ handle env (PostConvert file) w = (resp, w')
    /\ ((exists glb glb_bytes,
            convert_try env file w = (Ok resp, w')
            /\ glb_export env glb = Ok glb_bytes
            /\ status_of resp = 200
            /\ artifact_of resp = Some glb_bytes
            /\ error_of resp = None)
        \/ (exists e w1,
              convert_try env file w = (Raise e, w1)
              /\ resp = JSONResponse 500 [("error", e)]
              /\ artifact_of resp = None)).
Proof.
  pose proof (handle_convert file w) as Hh.
  pose proof (convert_image_paths file w) as Hc.
  destruct (convert_try env file w) as [[resp|e] w1] eqn:Ht.
  - exists resp, w1; split; [exact Hc|]; split; [exact Hh|]; left.
    destruct (convert_try_ok_inv _ _ _ _ Ht) as (safe & glb & b & _ & He & ->).
    exists glb, b; auto.
  - eexists; eexists; split; [exact Hc|]; split; [exact Hh|]; right.
    exists e, w1; auto.
Qed.

(** *** C7: an upload that does not decode *)

(** C7.  When [Image.open] raises on the uploaded bytes, [POST /convert]
    answers 500 without artifact bytes and without any [pipeline.run] call;
    the error payload is the text of the decode error whenever the file
    name went through the sanitizer. *)
Theorem decode_failure_response
  (file : UploadFile) (w : World Pipeline) (image_data : bytes) (e : string) :
  read file = Ok image_data ->
  image_open env image_data = Raise e ->
  status_of (fst (handle env (PostConvert file) w)) = 500
  /\ artifact_of (fst (handle env (PostConvert file) w)) = None
  /\ calls EvPipelineRun (trace (snd (handle env (PostConvert file) w)))
     = calls EvPipelineRun (trace w)
  /\ (forall safe_name,
         sanitize env (filename file) = Ok safe_name ->
         handle env (PostConvert file) w
         = (JSONResponse 500 [("error", e)],
            logged w [EvFileRead; EvImageOpen; EvPrint ("❌ Error: " ++ e)])).
Proof.
  intros Hr Ho.
  pose proof (handle_convert_runs file w) as Hruns.
  rewrite handle_convert in *; rewrite convert_try_paths in *.
  rewrite Hr, Ho in *.
  destruct (sanitize env (filename file)) as [safe|e'] eqn:Hs; simpl in *.
  - repeat split; auto.
    + rewrite Hruns, calls_app; simpl; lia.
    + intros ? _; rewrite logged_logged; reflexivity.
  - repeat split; auto. intros; discriminate.
Qed.

(** *** C4 and C9: the base name *)

Lemma derive_base_name_cases (safe_name : string) :
  (safe_name = EmptyString /\ derive_base_name safe_name = "output")
  \/ (safe_name <> EmptyString
      /\ derive_base_name safe_name = fst (PosixPath.splitext safe_name)).
Proof.
  unfold derive_base_name.
  pose proof (splitext_root_empty safe_name) as Hroot.
  destruct (PosixPath.splitext safe_name) as [base ext]; simpl in *.
  destruct base as [|a base]; simpl.
  - left; split; [now apply Hroot | reflexivity].
  - right; split; [|reflexivity].
    intros ->; destruct Hroot as [_ Hroot]; specialize (Hroot eq_refl); discriminate.
Qed.

(** Deriving the base name adds nothing unsafe: if the sanitizer returns a
    name free of path separators, reserved characters and control
    characters, the derived base name is free of them too and is never
    empty; it is "output" exactly when the sanitizer returned the empty
    string, and otherwise the root that [splitext] leaves; the proposed
    download name ends in .glb. *)
Lemma base_name_is_safe (name safe_name : string) :
  sanitize env name = Ok safe_name ->
  clean safe_name = true ->
  clean (derive_base_name safe_name) = true
  /\ derive_base_name safe_name <> EmptyString
  /\ (safe_name = EmptyString <-> derive_base_name safe_name = "output"
                                  /\ fst (PosixPath.splitext safe_name) = EmptyString)
  /\ (safe_name <> EmptyString ->
      derive_base_name safe_name = fst (PosixPath.splitext safe_name)
      /\ derive_base_name safe_name ++ snd (PosixPath.splitext safe_name) = safe_name)
  /\ PyStr.endswith ".glb" (download_name (derive_base_name safe_name)) = true.
Proof.
  intros _ Hclean.
  destruct (derive_base_name_cases safe_name) as [[He Hb] | [Hne Hb]]; rewrite Hb.
  - subst safe_name; split; [reflexivity|]; split; [discriminate|].
    split; [split; auto|]; split; [intros Hn; now elim Hn | reflexivity].
  - split; [now apply splitext_root_clean|].
    split; [intros Hr; apply (proj1 (splitext_root_empty _)) in Hr; contradiction|].
    split; [split; [intros Hs; contradiction
                   | intros [_ Hr]; apply (proj1 (splitext_root_empty _)) in Hr; contradiction]|].
    split; [intros _; split; [reflexivity | apply splitext_append]|].
    apply endswith_append.
Qed.

(** C4 fails on a file name written with the fullwidth solidus U+FF0F.
    The sanitize_filename package removes its blacklist, which holds the
    ASCII solidus only, before it normalizes the name, and the
    normalization turns U+FF0F into the ASCII solidus; so for the upload
    name below it returns ../../evil.png.  The base name derived from that
    is ../../evil, which holds path separators, and a successful conversion
    proposes the download name ../../evil.glb. *)
Theorem fullwidth_solidus_reaches_download_name
  (file : UploadFile) (w w' : World Pipeline)
  (image_data glb_bytes : bytes) (image : Image) :
  filename file = "..／..／evil.png" ->
  sanitize env (filename file) = Ok "../../evil.png" ->
  read file = Ok image_data ->
  image_open env image_data = Ok image ->
  process_image_to_glb_bytes env image (logged w [EvFileRead; EvImageOpen])
  = (Ok glb_bytes, w') ->
  derive_base_name "../../evil.png" = "../../evil"
  /\ PyStr.mem "/" (derive_base_name "../../evil.png") = true
  /\ clean (derive_base_name "../../evil.png") = false
  /\ handle env (PostConvert file) w
     = (Response 200 glb_bytes "model/gltf-binary"
          [("Content-Disposition",
            "attachment; filename=" ++ dquote ++ "../../evil.glb" ++ dquote)],
        w').
Proof.
  intros _ Hs Hr Ho Hp.
  split; [reflexivity|]; split; [reflexivity|]; split; [reflexivity|].
  rewrite handle_convert, convert_try_paths, Hs, Hr, Ho, Hp; reflexivity.
Qed.

(** C9.  Only the final extension is split off: the base name derived
    from model.tar.gz is model.tar and the download name is model.tar.glb,
    not model.glb; in general what is removed from a non-empty sanitized
    name is empty or a single dot followed by characters that hold no dot
    and no path separator. *)
Theorem final_extension_only :
  derive_base_name "model.tar.gz" = "model.tar"
  /\ download_name (derive_base_name "model.tar.gz") = "model.tar.glb"
  /\ download_name (derive_base_name "model.tar.gz") <> "model.glb"
  /\ forall safe_name,
       exists ext,
         (safe_name = EmptyString \/ safe_name = derive_base_name safe_name ++ ext)
         /\ (ext = EmptyString
             \/ exists e, ext = String "." e
                          /\ PyStr.mem "." e = false /\ PyStr.mem "/" e = false).
Proof.
  split; [reflexivity|]; split; [reflexivity|]; split; [discriminate|].
  intros safe_name; exists (snd (PosixPath.splitext safe_name)); split.
  - destruct (derive_base_name_cases safe_name) as [[He _] | [_ Hb]]; [now left|].
    right; rewrite Hb; symmetry; apply splitext_append.
  - apply splitext_ext_shape.
Qed.

(** *** C8: start-up *)

Lemma root_response (w : World Pipeline) :
  handle env GetRoot w
  = (JSONResponse 200
       [("status", "✅ Backend is running!"); ("device", device (globals w))], w).
Proof. reflexivity. Qed.

(** Without a pipeline every request is still answered: the root endpoint
    with 200 and the conversion endpoint with 500. *)
Lemma serve_without_pipeline (rs : list Request) (w : World Pipeline) :
  pipeline (globals w) = None ->
  Forall2 (fun r resp =>
             match r with
             | GetRoot => status_of resp = 200
             | PostConvert _ => status_of resp = 500 /\ artifact_of resp = None
             end)
          rs (fst (serve env rs w)).
Proof.
  revert w; induction rs as [|r rs IH]; intros w Hp; simpl; [constructor|].
  pose proof (handle_globals r w) as Hg.
  assert (Hr : match r with
               | GetRoot => status_of (fst (handle env r w)) = 200
               | PostConvert _ => status_of (fst (handle env r w)) = 500
                                  /\ artifact_of (fst (handle env r w)) = None
               end).
  { destruct r as [|file]; [reflexivity|].
    destruct (no_pipeline_convert_500 file w Hp) as [e He].
    rewrite He; split; reflexivity. }
  destruct (handle env r w) as [resp w1]; simpl in *.
  specialize (IH w1 ltac:(congruence)).
  destruct (serve env rs w1) as [resps w2]; simpl in *.
  constructor; assumption.
Qed.

Lemma startup_eq :
  startup env =
  {| globals := {| device := fst (select_device env);
                   pipeline := fst (load_pipeline env (fst (select_device env))) |};
     trace := ([EvPrint "⏳ Loading Model..."] ++ snd (select_device env)
               ++ snd (load_pipeline env (fst (select_device env))))%list |}.
Proof.
  unfold startup.
  destruct (select_device env) as [dev t1]; simpl.
  destruct (load_pipeline env dev); reflexivity.
Qed.

Lemma load_pipeline_load_raises (dev e : string) :
  from_pretrained env model_name = Raise e ->
  load_pipeline env dev = (None, [EvFromPretrained model_name; load_failed e]).
Proof. intros H; unfold load_pipeline; rewrite H; reflexivity. Qed.

Lemma load_pipeline_move_raises (dev : string) (p : Pipeline) (e : string) :
  from_pretrained env model_name = Ok p ->
  pipeline_to env p dev = Raise e ->
  load_pipeline env dev
  = (None, [EvFromPretrained model_name; EvPipelineTo dev; load_failed e]).
Proof. intros Hf Ht; unfold load_pipeline; rewrite Hf, Ht; reflexivity. Qed.

Lemma load_pipeline_ok (dev : string) (p : Pipeline) :
  from_pretrained env model_name = Ok p ->
  pipeline_to env p dev = Ok tt ->
  load_pipeline env dev = (Some p, [EvFromPretrained model_name; EvPipelineTo dev]).
Proof. intros Hf Ht; unfold load_pipeline; rewrite Hf, Ht; reflexivity. Qed.

(** C8.  Start-up always produces the module globals.  If loading the
    weights or moving the pipeline to the device raises, the failure is
    printed and [pipeline] is [None]; the service then still answers every
    request, [GET /] with 200 and [POST /convert] with 500.  If CUDA is not
    available the device is "cpu", the two warning lines of lines 21-22 are
    printed, and a pipeline that loads is kept. *)
Theorem startup_degrades :
  (forall e,
      from_pretrained env "microsoft/TRELLIS-image-large" = Raise e ->
      pipeline (globals (startup env)) = None
      /\ In (EvPrint ("❌ Model Load Failed: " ++ e)) (trace (startup env)))
  /\ (forall p e,
        from_pretrained env "microsoft/TRELLIS-image-large" = Ok p ->
        pipeline_to env p (device (globals (startup env))) = Raise e ->
        pipeline (globals (startup env)) = None
        /\ In (EvPrint ("❌ Model Load Failed: " ++ e)) (trace (startup env)))
  /\ (pipeline (globals (startup env)) = None ->
      forall rs,
        Forall2 (fun r resp =>
                   match r with
                   | GetRoot => status_of resp = 200
                   | PostConvert _ => status_of resp = 500 /\ artifact_of resp = None
                   end)
                rs (fst (serve env rs (startup env))))
  /\ (cuda_is_available env = false ->
      device (globals (startup env)) = "cpu"
      /\ In (EvPrint "⚠️ WARNING: CUDA not detected. TRELLIS requires an NVIDIA GPU to run.")
            (trace (startup env))
      /\ In (EvPrint "If you are on a Mac, this will likely fail or require a specific 'mps' fork.")
            (trace (startup env))
      /\ forall p,
           from_pretrained env "microsoft/TRELLIS-image-large" = Ok p ->
           pipeline_to env p "cpu" = Ok tt ->
           pipeline (globals (startup env)) = Some p).
Proof.
  fold model_name.
  rewrite startup_eq; cbn [globals trace device pipeline].
  split; [|split; [|split]].
  - intros e Hf; rewrite (load_pipeline_load_raises _ _ Hf); cbn [fst snd].
    split; [reflexivity|].
    apply in_or_app; right; apply in_or_app; right; simpl; auto.
  - intros p e Hf Ht; rewrite (load_pipeline_move_raises _ _ _ Hf Ht); cbn [fst snd].
    split; [reflexivity|].
    apply in_or_app; right; apply in_or_app; right; simpl; auto.
  - intros Hp rs; rewrite <- startup_eq.
    apply serve_without_pipeline; rewrite startup_eq; exact Hp.
  - intros Hc; unfold select_device; rewrite Hc; cbn [negb fst snd].
    split; [reflexivity|]; split; [|split].
    + apply in_or_app; right; apply in_or_app; left; left; reflexivity.
    + apply in_or_app; right; apply in_or_app; left; right; left; reflexivity.
    + intros p Hf Ht; rewrite (load_pipeline_ok _ _ Hf Ht); reflexivity.
Qed.

(** *** C10: the globals after start-up *)

(** Every [GET /] of a request sequence reports the device the sequence
    started with. *)
Lemma serve_root_device (rs : list Request) (w : World Pipeline) :
  Forall2 (fun r resp =>
             match r with
             | GetRoot =>
                 resp = JSONResponse 200
                          [("status", "✅ Backend is running!");
                           ("device", device (globals w))]
             | PostConvert _ => True
             end)
          rs (fst (serve env rs w)).
Proof.
  revert w; induction rs as [|r rs IH]; intros w; simpl; [constructor|].
  pose proof (handle_globals r w) as Hg.
  assert (Hr : match r with
               | GetRoot =>
                   fst (handle env r w)
                   = JSONResponse 200
                       [("status", "✅ Backend is running!");
                        ("device", device (globals w))]
               | PostConvert _ => True
               end).
  { destruct r; [rewrite root_response; reflexivity | exact I]. }
  destruct (handle env r w) as [resp w1]; simpl in *.
  specialize (IH w1); rewrite Hg in IH.
  destruct (serve env rs w1) as [resps w2]; simpl in *.
  constructor; assumption.
Qed.

(** C10.  Neither endpoint rebinds [device] or [pipeline]: after any
    sequence of requests the globals are those the service started with,
    and each [GET /] in the sequence is answered 200 with the device bound
    at start-up, which is "cuda" when CUDA was available and "cpu"
    otherwise. *)
Theorem device_fixed_after_startup :
  device (globals (startup env)) = (if cuda_is_available env then "cuda" else "cpu")
  /\ (forall r w, globals (snd (handle env r w)) = globals w)
  /\ forall rs,
       globals (snd (serve env rs (startup env))) = globals (startup env)
       /\ Forall2 (fun r resp =>
                     match r with
                     | GetRoot =>
                         resp = JSONResponse 200
                                  [("status", "✅ Backend is running!");
                                   ("device", device (globals (startup env)))]
                     | PostConvert _ => True
                     end)
                  rs (fst (serve env rs (startup env))).
Proof.
  split; [|split; [exact handle_globals|]].
  - unfold startup, select_device.
    destruct (cuda_is_available env); simpl;
      destruct (load_pipeline _ _); reflexivity.
  - intros rs; split; [apply serve_globals | apply serve_root_device].
Qed.

End Properties.

(** ** The model at work on the sample collaborators *)

Example startup_all_ok :
  globals (Sample.world Sample.all_ok) = {| device := "cuda"; pipeline := Some tt |}.
Proof. reflexivity. Qed.

Example startup_cpu_only :
  globals (Sample.world Sample.cpu_only) = {| device := "cpu"; pipeline := Some tt |}.
Proof. reflexivity. Qed.

Example startup_no_model :
  globals (Sample.world Sample.no_model) = {| device := "cuda"; pipeline := None |}
  /\ trace (Sample.world Sample.no_model)
     = [EvPrint "⏳ Loading Model..."; EvFromPretrained "microsoft/TRELLIS-image-large";
        EvPrint "❌ Model Load Failed: weights not found"].
Proof. split; reflexivity. Qed.

Example serve_no_model :
  fst (serve (Sample.env Sample.no_model)
         [GetRoot; PostConvert (Sample.upload "chair.png" Sample.png); GetRoot]
         (Sample.world Sample.no_model))
  = [JSONResponse 200 [("status", "✅ Backend is running!"); ("device", "cuda")];
     JSONResponse 500 [("error", "Model is not loaded.")];
     JSONResponse 200 [("status", "✅ Backend is running!"); ("device", "cuda")]].
Proof. reflexivity. Qed.

Example base_name_traversal :
  sanitize (Sample.env Sample.all_ok) "../../evil<>.png" = Ok "....evil.png"
  /\ derive_base_name "....evil.png" = "....evil"
  /\ download_name (derive_base_name "....evil.png") = "....evil.glb".
Proof. repeat split. Qed.

Example base_name_fallback :
  derive_base_name "" = "output"
  /\ download_name (derive_base_name "") = "output.glb"
  /\ sanitize (Sample.env Sample.all_ok) "<>:?*" = Ok ""
  /\ derive_base_name ".png" = ".png".
Proof. repeat split. Qed.

(** *** C8 *)

Lemma startup_degrades_witness :
  from_pretrained (Sample.env Sample.no_model) "microsoft/TRELLIS-image-large"
  = Raise "weights not found"
  /\ pipeline (globals (startup (Sample.env Sample.no_model))) = None
  /\ In (EvPrint "❌ Model Load Failed: weights not found")
        (trace (startup (Sample.env Sample.no_model)))
  /\ cuda_is_available (Sample.env Sample.cpu_only) = false
  /\ device (globals (startup (Sample.env Sample.cpu_only))) = "cpu"
  /\ In (EvPrint "⚠️ WARNING: CUDA not detected. TRELLIS requires an NVIDIA GPU to run.")
        (trace (startup (Sample.env Sample.cpu_only)))
  /\ pipeline (globals (startup (Sample.env Sample.cpu_only))) = Some tt.
Proof.
  destruct (startup_degrades (Sample.env Sample.no_model)) as (Hload & _).
  destruct (startup_degrades (Sample.env Sample.cpu_only)) as (_ & _ & _ & Hcpu).
  destruct (Hload _ eq_refl) as [Hnone Hprinted].
  destruct (Hcpu eq_refl) as (Hdev & Hwarn & _ & Hkept).
  split; [reflexivity|]; split; [exact Hnone|]; split; [exact Hprinted|].
  split; [reflexivity|]; split; [exact Hdev|]; split; [exact Hwarn|].
  exact (Hkept tt eq_refl eq_refl).
Defined.

(** *** C1 *)

Lemma cleanup_after_successful_job_witness :
  process_image_to_glb_bytes (Sample.env Sample.all_ok) Sample.png
    (Sample.world Sample.all_ok)
  = (Ok Sample.png, Sample.after_job Sample.all_ok)
  /\ calls EvDelOutputs (trace (Sample.after_job Sample.all_ok)) = 1%nat
  /\ calls EvEmptyCache (trace (Sample.after_job Sample.all_ok)) = 1%nat.
Proof.
  assert (H : process_image_to_glb_bytes (Sample.env Sample.all_ok) Sample.png
                (Sample.world Sample.all_ok)
              = (Ok Sample.png, Sample.after_job Sample.all_ok)) by reflexivity.
  split; [exact H|].
  destruct (cleanup_after_successful_job _ _ _ _ _ H) as (_ & Hd & Hc).
  split; [rewrite Hd | rewrite Hc]; reflexivity.
Defined.

(** C1 as stated fails.  On the CPU fallback a successful job issues no
    cache-reclaim call; with CUDA available, a job whose [pipeline.run]
    raises and a job whose export raises leave without releasing the
    outputs and without a cache-reclaim call. *)
Lemma cleanup_not_on_every_path :
  (fst (process_image_to_glb_bytes (Sample.env Sample.cpu_only) Sample.png
          (Sample.world Sample.cpu_only)) = Ok Sample.png
   /\ calls EvEmptyCache (trace (Sample.after_job Sample.cpu_only)) = 0%nat)
  /\ (fst (process_image_to_glb_bytes (Sample.env Sample.run_fails) Sample.png
             (Sample.world Sample.run_fails)) = Raise "CUDA out of memory"
      /\ calls EvDelOutputs (trace (Sample.after_job Sample.run_fails)) = 0%nat
      /\ calls EvEmptyCache (trace (Sample.after_job Sample.run_fails)) = 0%nat)
  /\ (fst (process_image_to_glb_bytes (Sample.env Sample.export_fails) Sample.png
             (Sample.world Sample.export_fails)) = Raise "export failed"
      /\ calls EvDelOutputs (trace (Sample.after_job Sample.export_fails)) = 0%nat
      /\ calls EvEmptyCache (trace (Sample.after_job Sample.export_fails)) = 0%nat).
Proof. repeat split. Qed.

(** *** C3 *)

Lemma unavailable_pipeline_fails_fast_witness :
  pipeline (globals (Sample.world Sample.no_model)) = None
  /\ fst (handle (Sample.env Sample.no_model)
            (PostConvert (Sample.upload "chair.png" Sample.png))
            (Sample.world Sample.no_model))
     = JSONResponse 500 [("error", "Model is not loaded.")].
Proof.
  split; [reflexivity|].
  destruct (unavailable_pipeline_fails_fast (Sample.env Sample.no_model)
              (Sample.world Sample.no_model) eq_refl) as [_ H].
  destruct (H (Sample.upload "chair.png" Sample.png)) as (e & He & _ & Hmsg).
  rewrite He, (Hmsg _ _ _ eq_refl eq_refl eq_refl); reflexivity.
Defined.

(** *** The base name of a sanitized name *)

Lemma base_name_is_safe_witness :
  sanitize (Sample.env Sample.all_ok) "../../evil<>.png" = Ok "....evil.png"
  /\ clean "....evil.png" = true
  /\ clean (derive_base_name "....evil.png") = true
  /\ derive_base_name "....evil.png" <> EmptyString
  /\ PyStr.endswith ".glb" (download_name (derive_base_name "....evil.png")) = true.
Proof.
  split; [reflexivity|]; split; [reflexivity|].
  destruct (base_name_is_safe (Sample.env Sample.all_ok)
              "../../evil<>.png" "....evil.png" eq_refl eq_refl)
    as (Hc & Hne & _ & _ & Hglb).
  auto.
Defined.

(** *** C5 *)

Example convert_success_sample :
  fst (handle (Sample.env Sample.all_ok)
         (PostConvert (Sample.upload "chair.png" Sample.png))
         (Sample.world Sample.all_ok))
  = Response 200 Sample.png "model/gltf-binary"
      [("Content-Disposition",
        "attachment; filename=" ++ dquote ++ "chair.glb" ++ dquote)].
Proof.
  rewrite (convert_success_response (Sample.env Sample.all_ok)
             (Sample.upload "chair.png" Sample.png) (Sample.world Sample.all_ok)
             (snd (process_image_to_glb_bytes (Sample.env Sample.all_ok) Sample.png
                     (logged (Sample.world Sample.all_ok) [EvFileRead; EvImageOpen])))
             "chair.png" Sample.png Sample.png Sample.png
             eq_refl eq_refl eq_refl eq_refl eq_refl).
  reflexivity.
Qed.

Lemma unicode_name_answers_500_witness :
  sanitize (Sample.env Sample.all_ok) "模型.png" = Ok "模型.png"
  /\ read (Sample.upload "模型.png" Sample.png) = Ok Sample.png
  /\ image_open (Sample.env Sample.all_ok) Sample.png = Ok Sample.png
  /\ fst (process_image_to_glb_bytes (Sample.env Sample.all_ok) Sample.png
            (logged (Sample.world Sample.all_ok) [EvFileRead; EvImageOpen]))
     = Ok Sample.png
  /\ PyStr.latin1 ("attachment; filename=" ++ dquote
                     ++ (derive_base_name "模型.png" ++ ".glb") ++ dquote) = false
  /\ fst (handle (Sample.env Sample.all_ok)
            (PostConvert (Sample.upload "模型.png" Sample.png))
            (Sample.world Sample.all_ok))
     = JSONResponse 500 [("error", "'latin-1' codec can't encode characters")]
  /\ trace (snd (handle (Sample.env Sample.all_ok)
                   (PostConvert (Sample.upload "模型.png" Sample.png))
                   (Sample.world Sample.all_ok)))
     = (trace (Sample.world Sample.all_ok)
        ++ [EvFileRead; EvImageOpen; EvPipelineRun; EvToGlb; EvExport;
            EvDelOutputs; EvEmptyCache;
            EvPrint "❌ Error: 'latin-1' codec can't encode characters"])%list.
Proof.
  repeat (split; [reflexivity|]).
  destruct (unicode_name_answers_500 (Sample.env Sample.all_ok)
              (Sample.upload "模型.png" Sample.png) (Sample.world Sample.all_ok)
              (snd (process_image_to_glb_bytes (Sample.env Sample.all_ok) Sample.png
                      (logged (Sample.world Sample.all_ok) [EvFileRead; EvImageOpen])))
              "模型.png" Sample.png Sample.png Sample.png
              eq_refl eq_refl eq_refl eq_refl eq_refl) as (Hh & _ & _).
  rewrite Hh; split; reflexivity.
Defined.

(** *** C4: a name the sanitizer normalizes into a path *)

Lemma fullwidth_solidus_reaches_download_name_witness :
  filename (Sample.upload "..／..／evil.png" Sample.png) = "..／..／evil.png"
  /\ sanitize (Sample.env Sample.all_ok) "..／..／evil.png" = Ok "../../evil.png"
  /\ read (Sample.upload "..／..／evil.png" Sample.png) = Ok Sample.png
  /\ image_open (Sample.env Sample.all_ok) Sample.png = Ok Sample.png
  /\ fst (process_image_to_glb_bytes (Sample.env Sample.all_ok) Sample.png
            (logged (Sample.world Sample.all_ok) [EvFileRead; EvImageOpen]))
     = Ok Sample.png
  /\ fst (handle (Sample.env Sample.all_ok)
            (PostConvert (Sample.upload "..／..／evil.png" Sample.png))
            (Sample.world Sample.all_ok))
     = Response 200 Sample.png "model/gltf-binary"
         [("Content-Disposition",
           "attachment; filename=" ++ dquote ++ "../../evil.glb" ++ dquote)].
Proof.
  repeat (split; [reflexivity|]).
  destruct (fullwidth_solidus_reaches_download_name (Sample.env Sample.all_ok)
              (Sample.upload "..／..／evil.png" Sample.png) (Sample.world Sample.all_ok)
              (snd (process_image_to_glb_bytes (Sample.env Sample.all_ok) Sample.png
                      (logged (Sample.world Sample.all_ok) [EvFileRead; EvImageOpen])))
              Sample.png Sample.png Sample.png
              eq_refl eq_refl eq_refl eq_refl eq_refl) as (_ & _ & _ & Hh).
  rewrite Hh; reflexivity.
Defined.

(** *** C7 *)

Lemma decode_failure_response_witness :
  read (Sample.upload "notes.txt" []) = Ok []
  /\ image_open (Sample.env Sample.all_ok) [] = Raise "cannot identify image file"
  /\ handle (Sample.env Sample.all_ok) (PostConvert (Sample.upload "notes.txt" []))
       (Sample.world Sample.all_ok)
     = (JSONResponse 500 [("error", "cannot identify image file")],
        logged (Sample.world Sample.all_ok)
          [EvFileRead; EvImageOpen; EvPrint "❌ Error: cannot identify image file"])
  /\ calls EvPipelineRun
       (trace (snd (handle (Sample.env Sample.all_ok)
                      (PostConvert (Sample.upload "notes.txt" []))
                      (Sample.world Sample.all_ok)))) = 0%nat.
Proof.
  split; [reflexivity|]; split; [reflexivity|].
  destruct (decode_failure_response (Sample.env Sample.all_ok)
              (Sample.upload "notes.txt" []) (Sample.world Sample.all_ok)
              [] "cannot identify image file" eq_refl eq_refl)
    as (_ & _ & Hruns & Hresp).
  split; [exact (Hresp "notes.txt" eq_refl) | rewrite Hruns; reflexivity].
Defined.

(** ** The worker pool *)

Module PoolFacts.
Import Pool.

Local Open Scope nat_scope.
Local Open Scope list_scope.

Lemma busy_app (l1 l2 : list Phase) : busy (l1 ++ l2) = busy l1 + busy l2.
Proof. unfold busy; now rewrite filter_app, length_app. Qed.

Lemma running_app (l1 l2 : list Phase) : running (l1 ++ l2) = running l1 + running l2.
Proof. unfold running; now rewrite filter_app, length_app. Qed.

Lemma busy_cons (ph : Phase) (l : list Phase) :
  busy (ph :: l) = (if in_worker ph then 1 else 0) + busy l.
Proof. unfold busy; simpl; now destruct (in_worker ph). Qed.

Lemma running_cons (ph : Phase) (l : list Phase) :
  running (ph :: l) = (if is_running ph then 1 else 0) + running l.
Proof. unfold running; simpl; now destruct (is_running ph). Qed.

Lemma running_le_busy (st : list Phase) : running st <= busy st.
Proof.
  induction st as [|ph st IH]; [reflexivity|].
  rewrite running_cons, busy_cons; destruct ph; simpl; lia.
Qed.

Lemma running_le_length (st : list Phase) : running st <= length st.
Proof. unfold running; apply filter_length_le. Qed.

Lemma busy_accepted (n : nat) : busy (repeat Accepted n) = 0.
Proof. induction n as [|n IH]; [reflexivity | exact IH]. Qed.

Lemma busy_running (k : nat) : busy (repeat Running k) = k.
Proof. induction k as [|k IH]; [reflexivity|]. simpl repeat; rewrite busy_cons, IH; reflexivity. Qed.

Lemma running_running (k : nat) : running (repeat Running k) = k.
Proof. induction k as [|k IH]; [reflexivity|]. simpl repeat; rewrite running_cons, IH; reflexivity. Qed.

Lemma running_accepted (n : nat) : running (repeat Accepted n) = 0.
Proof. induction n as [|n IH]; [reflexivity | exact IH]. Qed.

Lemma repeat_snoc {A : Type} (x : A) (k : nat) (l : list A) :
  repeat x k ++ x :: l = repeat x (S k) ++ l.
Proof. induction k as [|k IH]; simpl; [reflexivity | now rewrite IH]. Qed.

(** A step changes one phase and keeps the pool within its capacity. *)
Lemma step_invariant (workers : nat) (st st' : list Phase) :
  step workers st st' ->
  busy st <= workers ->
  busy st' <= workers /\ length st' = length st.
Proof.
  intros [before ph ph' after Hadv Htake] Hle.
  rewrite !length_app; simpl; split; [|reflexivity].
  rewrite busy_app, busy_cons in *.
  unfold takes_worker in Htake.
  destruct Hadv as [ | | | | | | ph Hne]; simpl in *;
    try (specialize (Htake eq_refl)); lia.
Qed.

Lemma reachable_invariant (workers n : nat) (st : list Phase) :
  reachable workers (submitted n) st ->
  busy st <= workers /\ length st = n.
Proof.
  induction 1 as [|st st' _ [IHb IHl] Hstep].
  - unfold submitted; rewrite busy_accepted, repeat_length; lia.
  - destruct (step_invariant _ _ _ Hstep IHb) as [Hb Hl]; lia.
Qed.

Lemma reachable_trans (workers : nat) (st0 st1 st2 : list Phase) :
  reachable workers st0 st1 -> reachable workers st1 st2 -> reachable workers st0 st2.
Proof.
  intros H01 H12; induction H12 as [|st st' _ IH Hstep]; [exact H01|].
  exact (reach_step _ _ _ _ IH Hstep).
Qed.

(** With a free worker, one more request can be brought from [Accepted]
    into [pipeline.run] while the requests before it stay inside their own
    [pipeline.run]. *)
Lemma enter_run (workers k : nat) (after : list Phase) :
  k < workers ->
  busy after = 0 ->
  reachable workers (repeat Running k ++ Accepted :: after)
                    (repeat Running (S k) ++ after).
Proof.
  intros Hfree Hafter.
  rewrite <- repeat_snoc.
  apply reach_step with (st := repeat Running k ++ Decoded :: after).
  apply reach_step with (st := repeat Running k ++ Decoding :: after).
  apply reach_step with (st := repeat Running k ++ Accepted :: after).
  - apply reach_init.
  - apply step_job; [constructor|].
    intros _; rewrite busy_app, busy_cons, busy_running, Hafter; simpl; lia.
  - apply step_job; [constructor | discriminate].
  - apply step_job; [constructor|].
    intros _; rewrite busy_app, busy_cons, busy_running, Hafter; simpl; lia.
Qed.

(** Any number of requests up to the pool capacity can be inside
    [pipeline.run] together. *)
Lemma reach_running (workers n k : nat) :
  k <= n -> k <= workers ->
  reachable workers (submitted n) (repeat Running k ++ repeat Accepted (n - k)).
Proof.
  induction k as [|k IH]; intros Hn Hw.
  - rewrite Nat.sub_0_r; apply reach_init.
  - eapply reachable_trans; [apply IH; lia|].
    replace (n - k) with (S (n - S k)) by lia; simpl repeat.
    apply enter_run; [lia | apply busy_accepted].
Qed.

(** While one request is exporting, another can be decoding. *)
Lemma reach_export_decode (workers n : nat) :
  2 <= workers ->
  reachable workers (submitted (S (S n))) (Exporting :: Decoding :: repeat Accepted n).
Proof.
  intros Hw; unfold submitted; simpl repeat.
  pose proof (busy_accepted n) as Hb.
  apply reach_step with (st := Exporting :: Accepted :: repeat Accepted n).
  apply reach_step with (st := Running :: Accepted :: repeat Accepted n).
  apply reach_step with (st := Decoded :: Accepted :: repeat Accepted n).
  apply reach_step with (st := Decoding :: Accepted :: repeat Accepted n).
  apply reach_step with (st := Accepted :: Accepted :: repeat Accepted n).
  - apply reach_init.
  - apply (step_job workers [] Accepted Decoding); [constructor|].
    intros _; simpl; rewrite !busy_cons, Hb; simpl; lia.
  - apply (step_job workers [] Decoding Decoded); [constructor | discriminate].
  - apply (step_job workers [] Decoded Running); [constructor|].
    intros _; simpl; rewrite !busy_cons, Hb; simpl; lia.
  - apply (step_job workers [] Running Exporting); [constructor | discriminate].
  - apply (step_job workers [Exporting] Accepted Decoding); [constructor|].
    intros _; simpl; rewrite !busy_cons, Hb; simpl; lia.
Qed.

(** C2 (as amended).  Nothing but the capacity of the worker pool limits
    how many requests are inside [pipeline.run]: with at least two requests
    and at least two workers, the number of requests inside the call never
    exceeds the number of requests or of workers, that bound is reached, so
    the inference call is not serialized, and a decode of one request can
    overlap the export of another. *)
Theorem inference_bounded_only_by_pool (workers n : nat) :
  2 <= n -> 2 <= workers ->
  (forall st, reachable workers (submitted n) st ->
              busy st <= workers /\ running st <= Nat.min n workers)
  /\ (exists st, reachable workers (submitted n) st
                 /\ running st = Nat.min n workers)
  /\ (exists st, reachable workers (submitted n) st
                 /\ In Decoding st /\ In Exporting st)
  /\ ~ serialized workers n.
Proof.
  intros Hn Hw.
  assert (Hmax : exists st, reachable workers (submitted n) st
                            /\ running st = Nat.min n workers).
  { exists (repeat Running (Nat.min n workers)
            ++ repeat Accepted (n - Nat.min n workers)); split.
    - apply reach_running; lia.
    - rewrite running_app, running_running, running_accepted; lia. }
  split; [|split; [exact Hmax|split]].
  - intros st Hr; destruct (reachable_invariant _ _ _ Hr) as [Hb Hl].
    pose proof (running_le_busy st); pose proof (running_le_length st).
    split; [exact Hb | lia].
  - destruct n as [|[|n]]; try lia.
    exists (Exporting :: Decoding :: repeat Accepted n); split.
    + apply reach_export_decode; exact Hw.
    + simpl; auto.
  - intros Hser; destruct Hmax as (st & Hr & Hrun).
    specialize (Hser st Hr); lia.
Qed.

Lemma inference_bounded_only_by_pool_witness :
  2 <= 3 /\ 2 <= 40
  /\ (exists st, reachable 40 (submitted 3) st /\ running st = 3)
  /\ ~ serialized 40 3.
Proof.
  assert (Hn : 2 <= 3) by (repeat constructor).
  assert (Hw : 2 <= 40) by (apply Nat.leb_le; reflexivity).
  split; [exact Hn|]; split; [exact Hw|].
  destruct (inference_bounded_only_by_pool 40 3 Hn Hw) as (_ & Hmax & _ & Hns).
  split; [exact Hmax | exact Hns].
Defined.

(** C2 as stated fails: two requests submitted together to a pool of 40
    workers reach a state in which both are inside [pipeline.run]. *)
Lemma two_jobs_inside_run :
  exists st, reachable 40 (submitted 2) st /\ st = [Running; Running] /\ running st = 2.
Proof.
  exists [Running; Running]; split; [|split; reflexivity].
  apply (reach_running 40 2 2); [constructor | apply Nat.leb_le; reflexivity].
Qed.

End PoolFacts.

(** * Further properties of the handlers *)

Section Requests.
Context {Image Pipeline Outputs Repr Glb : Type}.
Variable env : Collaborators Image Pipeline Outputs Repr Glb.

Local Open Scope list_scope.

(** Case analysis on the collaborator results met along a request. *)
Ltac walk :=
  repeat match goal with
         | |- context [match ?x with Ok _ => _ | Raise _ => _ end] => destruct x eqn:?
         | |- context [match ?x with Some _ => _ | None => _ end] => destruct x eqn:?
         | |- context [if PyStr.latin1 ?s then _ else _] =>
             destruct (PyStr.latin1 s) eqn:?
         end.

(** The whole of [POST /convert], path by path. *)
Lemma handle_convert_paths (file : UploadFile) (w : World Pipeline) :
  handle env (PostConvert file) w =
  match sanitize env (filename file) with
  | Raise e => failed w [] e
  | Ok safe_name =>
  match read file with
  | Raise e => failed w (firstn 1 job_calls) e
  | Ok image_data =>
  match image_open env image_data with
  | Raise e => failed w (firstn 2 job_calls) e
  | Ok image =>
  match pipeline (globals w) with
  | None => failed w (firstn 2 job_calls) "Model is not loaded."
  | Some p =>
  match pipeline_run env p image with
  | Raise e => failed w (firstn 3 job_calls) e
  | Ok outputs =>
  match outputs_item env outputs "gaussian" with
  | Raise e => failed w (firstn 3 job_calls) e
  | Ok gaussian =>
  match outputs_item env outputs "mesh" with
  | Raise e => failed w (firstn 3 job_calls) e
  | Ok mesh =>
  match to_glb env gaussian mesh with
  | Raise e => failed w (firstn 4 job_calls) e
  | Ok glb =>
  match glb_export env glb with
  | Raise e => failed w (firstn 5 job_calls) e
  | Ok glb_bytes =>
      if PyStr.latin1 (content_disposition (derive_base_name safe_name))
      then (Response 200 glb_bytes "model/gltf-binary"
              [("Content-Disposition",
                content_disposition (derive_base_name safe_name))],
            logged w (job_calls ++ cleanup_events env))
      else failed w (job_calls ++ cleanup_events env)
             (unicode_encode_error env
                (content_disposition (derive_base_name safe_name)))
  end end end end end end end end end.
Proof.
  rewrite handle_convert, convert_try_paths; unfold failed.
  destruct (sanitize env (filename file)) as [safe|e]; [|reflexivity].
  destruct (read file) as [data|e]; [|now rewrite logged_logged].
  destruct (image_open env data) as [image|e]; [|now rewrite logged_logged].
  rewrite process_paths; cbn [globals logged].
  destruct (pipeline (globals w)) as [p|]; [|now rewrite logged_logged].
  destruct (pipeline_run env p image) as [outputs|e]; [|now rewrite !logged_logged].
  destruct (outputs_item env outputs "gaussian") as [gaussian|e];
    [|now rewrite !logged_logged].
  destruct (outputs_item env outputs "mesh") as [mesh|e];
    [|now rewrite !logged_logged].
  destruct (to_glb env gaussian mesh) as [glb|e]; [|now rewrite !logged_logged].
  destruct (glb_export env glb) as [b|e]; [|now rewrite !logged_logged].
  destruct (PyStr.latin1 _); now rewrite !logged_logged.
Qed.

(** X1.  [POST /convert] answers 200 or 500, and 200 exactly when the file
    name sanitizes, the body reads, the image opens, a pipeline is loaded,
    the run returns, both subscripts of its outputs return, the GLB
    conversion and the export return, and the Content-Disposition value
    encodes as latin-1.  The answer is then the 200 response whose body is
    the exported bytes, with the media type and the header of lines
    101-102. *)
Theorem convert_ok_iff (file : UploadFile) (w : World Pipeline) :
  (status_of (fst (handle env (PostConvert file) w)) = 200
   \/ status_of (fst (handle env (PostConvert file) w)) = 500)
  /\ (status_of (fst (handle env (PostConvert file) w)) = 200 <->
      exists safe_name image_data image p outputs gaussian mesh glb glb_bytes,
        sanitize env (filename file) = Ok safe_name
        /\ read file = Ok image_data
        /\ image_open env image_data = Ok image
        /\ pipeline (globals w) = Some p
        /\ pipeline_run env p image = Ok outputs
        /\ outputs_item env outputs "gaussian" = Ok gaussian
        /\ outputs_item env outputs "mesh" = Ok mesh
        /\ to_glb env gaussian mesh = Ok glb
        /\ glb_export env glb = Ok glb_bytes
        /\ PyStr.latin1 (content_disposition (derive_base_name safe_name)) = true)
  /\ (forall safe_name image_data image p outputs gaussian mesh glb glb_bytes,
        sanitize env (filename file) = Ok safe_name ->
        read file = Ok image_data ->
        image_open env image_data = Ok image ->
        pipeline (globals w) = Some p ->
        pipeline_run env p image = Ok outputs ->
        outputs_item env outputs "gaussian" = Ok gaussian ->
        outputs_item env outputs "mesh" = Ok mesh ->
        to_glb env gaussian mesh = Ok glb ->
        glb_export env glb = Ok glb_bytes ->
        PyStr.latin1 (content_disposition (derive_base_name safe_name)) = true ->
        fst (handle env (PostConvert file) w)
        = Response 200 glb_bytes "model/gltf-binary"
            [("Content-Disposition",
              ("attachment; filename=" ++ dquote
                 ++ (derive_base_name safe_name ++ ".glb") ++ dquote)%string)]).
Proof.
  rewrite handle_convert_paths; unfold failed.
  walk; cbn [fst status_of].
  all: split; [first [now left | now right]|].
  all: split;
    [split;
     [intros H; try discriminate H;
      repeat eexists; eassumption
     |intros H; decompose [ex and] H; congruence]
    |intros; unfold content_disposition, download_name; congruence].
Qed.

(** X2.  A conversion request issues its calls in the order read, open,
    run, to_glb, export, clean-up, and stops at the first step that raises:
    nothing is called when the sanitizer raises; a read or open that raises
    is the last call; without a pipeline nothing follows the open; a run
    that raises, or a missing entry of its outputs, leaves the run as the
    last call, so that [to_glb] is not entered; a [to_glb] or export that
    raises is the last call; and when the header value does not encode, all
    five calls and the clean-up have been issued.  In each of these cases
    the error is printed once and answered as the 500 payload.  When
    nothing raises the five calls and the clean-up are issued, nothing is
    printed, and the answer is 200. *)
Theorem request_calls_in_order (file : UploadFile) (w : World Pipeline) :
  (forall e,
      sanitize env (filename file) = Raise e ->
      handle env (PostConvert file) w = failed w [] e)
  /\ (forall safe_name,
      sanitize env (filename file) = Ok safe_name ->
  (forall e,
      read file = Raise e ->
      handle env (PostConvert file) w = failed w [EvFileRead] e)
  /\ (forall image_data,
      read file = Ok image_data ->
  (forall e,
      image_open env image_data = Raise e ->
      handle env (PostConvert file) w = failed w [EvFileRead; EvImageOpen] e)
  /\ (forall image,
      image_open env image_data = Ok image ->
  (pipeline (globals w) = None ->
   handle env (PostConvert file) w
   = failed w [EvFileRead; EvImageOpen] "Model is not loaded.")
  /\ (forall p,
      pipeline (globals w) = Some p ->
  (forall e,
      pipeline_run env p image = Raise e ->
      handle env (PostConvert file) w
      = failed w [EvFileRead; EvImageOpen; EvPipelineRun] e)
  /\ (forall outputs,
      pipeline_run env p image = Ok outputs ->
  (forall e,
      outputs_item env outputs "gaussian" = Raise e ->
      handle env (PostConvert file) w
      = failed w [EvFileRead; EvImageOpen; EvPipelineRun] e)
  /\ (forall gaussian,
      outputs_item env outputs "gaussian" = Ok gaussian ->
  (forall e,
      outputs_item env outputs "mesh" = Raise e ->
      handle env (PostConvert file) w
      = failed w [EvFileRead; EvImageOpen; EvPipelineRun] e)
  /\ (forall mesh,
      outputs_item env outputs "mesh" = Ok mesh ->
  (forall e,
      to_glb env gaussian mesh = Raise e ->
      handle env (PostConvert file) w
      = failed w [EvFileRead; EvImageOpen; EvPipelineRun; EvToGlb] e)
  /\ (forall glb,
      to_glb env gaussian mesh = Ok glb ->
  (forall e,
      glb_export env glb = Raise e ->
      handle env (PostConvert file) w
      = failed w [EvFileRead; EvImageOpen; EvPipelineRun; EvToGlb; EvExport] e)
  /\ (forall glb_bytes,
      glb_export env glb = Ok glb_bytes ->
  (PyStr.latin1 (content_disposition (derive_base_name safe_name)) = false ->
   handle env (PostConvert file) w
   = failed w
       ([EvFileRead; EvImageOpen; EvPipelineRun; EvToGlb; EvExport; EvDelOutputs]
        ++ (if cuda_is_available env then [EvEmptyCache] else []))
       (unicode_encode_error env (content_disposition (derive_base_name safe_name))))
  /\ (PyStr.latin1 (content_disposition (derive_base_name safe_name)) = true ->
      status_of (fst (handle env (PostConvert file) w)) = 200
      /\ trace (snd (handle env (PostConvert file) w))
         = trace w
           ++ [EvFileRead; EvImageOpen; EvPipelineRun; EvToGlb; EvExport; EvDelOutputs]
           ++ (if cuda_is_available env then [EvEmptyCache] else []))))))))))).
Proof.
  rewrite handle_convert_paths; unfold cleanup_events.
  repeat match goal with
         | |- _ /\ _ => split
         | |- forall _, _ => intro
         | H : ?l = _ |- context [match ?l with _ => _ end] => rewrite H; clear H
         | H : PyStr.latin1 ?l = _ |- context [if PyStr.latin1 ?l then _ else _] =>
             rewrite H; clear H
         | |- _ = _ => reflexivity
         end.
Qed.

(** X3.  A job that raises leaves without either clean-up call and
    without touching the globals.  Either no pipeline was loaded, and then
    the error is the model-not-loaded one and no call at all was issued, or
    [pipeline.run] was called exactly once. *)
Theorem failed_job_skips_cleanup
  (image : Image) (w w' : World Pipeline) (e : string) :
  process_image_to_glb_bytes env image w = (Raise e, w') ->
  globals w' = globals w
  /\ calls EvDelOutputs (trace w') = calls EvDelOutputs (trace w)
  /\ calls EvEmptyCache (trace w') = calls EvEmptyCache (trace w)
  /\ ((pipeline (globals w) = None /\ e = "Model is not loaded."%string /\ w' = w)
      \/ (exists p, pipeline (globals w) = Some p
                    /\ calls EvPipelineRun (trace w')
                       = S (calls EvPipelineRun (trace w)))).
Proof.
  rewrite process_paths.
  destruct (pipeline (globals w)) as [p|].
  - destruct (pipeline_run env p image) as [outputs|e1];
      [destruct (outputs_item env outputs "gaussian") as [gaussian|e2];
       [destruct (outputs_item env outputs "mesh") as [mesh|e3];
        [destruct (to_glb env gaussian mesh) as [glb|e4];
         [destruct (glb_export env glb) as [b|e5]; [discriminate|]|]|]|]|];
      intros H; injection H as <- <-;
      (split; [reflexivity|]); rewrite !calls_logged; simpl;
      (split; [lia|]); (split; [lia|]); right; exists p;
      (split; [reflexivity | lia]).
  - intros H; injection H as <- <-; repeat split; left; auto.
Qed.

(** *** Whole sessions *)

Lemma prints_app (l1 l2 : list Event) : prints (l1 ++ l2) = (prints l1 + prints l2)%nat.
Proof. unfold prints; now rewrite filter_app, length_app. Qed.

Lemma prints_logged (w : World Pipeline) (l : list Event) :
  prints (trace (logged w l)) = (prints (trace w) + prints l)%nat.
Proof. apply prints_app. Qed.

(** What one request adds to each count. *)
Lemma handle_accounting (r : Request) (w : World Pipeline) :
  (calls EvDelOutputs (trace w)
   + (if is_success (fst (handle env r w)) then 1 else 0)
   <= calls EvDelOutputs (trace (snd (handle env r w)))
   /\ calls EvDelOutputs (trace (snd (handle env r w))) + calls EvPipelineRun (trace w)
      <= calls EvPipelineRun (trace (snd (handle env r w))) + calls EvDelOutputs (trace w)
   /\ calls EvPipelineRun (trace (snd (handle env r w)))
      <= calls EvPipelineRun (trace w) + (if is_convert r then 1 else 0)
   /\ calls EvEmptyCache (trace (snd (handle env r w)))
      + (if cuda_is_available env then calls EvDelOutputs (trace w) else 0)
      = calls EvEmptyCache (trace w)
        + (if cuda_is_available env
           then calls EvDelOutputs (trace (snd (handle env r w))) else 0)
   /\ prints (trace (snd (handle env r w)))
      = prints (trace w) + (if is_failure (fst (handle env r w)) then 1 else 0)
   /\ (if is_success (fst (handle env r w)) then 1 else 0)
      + (if is_failure (fst (handle env r w)) then 1 else 0)
      = (if is_convert r then 1 else 0))%nat.
Proof.
  destruct r as [|file].
  - rewrite root_response; simpl; destruct (cuda_is_available env); repeat split; lia.
  - rewrite handle_convert_paths; unfold failed, cleanup_events.
    walk; destruct (cuda_is_available env);
      cbn [fst snd is_success is_failure status_of is_convert];
      rewrite !calls_logged, prints_logged; simpl; repeat split; lia.
Qed.


Lemma serve_cons (r : Request) (rs : list Request) (w : World Pipeline) :
  serve env (r :: rs) w
  = (fst (handle env r w) :: fst (serve env rs (snd (handle env r w))),
     snd (serve env rs (snd (handle env r w)))).
Proof.
  simpl; destruct (handle env r w) as [resp w1]; simpl.
  destruct (serve env rs w1); reflexivity.
Qed.

Lemma successes_cons (r : HttpResponse) (l : list HttpResponse) :
  successes (r :: l) = ((if is_success r then 1 else 0) + successes l)%nat.
Proof. unfold successes; simpl; now destruct (is_success r). Qed.

Lemma failures_cons (r : HttpResponse) (l : list HttpResponse) :
  failures (r :: l) = ((if is_failure r then 1 else 0) + failures l)%nat.
Proof. unfold failures; simpl; now destruct (is_failure r). Qed.

Lemma conversions_cons (r : Request) (l : list Request) :
  conversions (r :: l) = ((if is_convert r then 1 else 0) + conversions l)%nat.
Proof. unfold conversions; simpl; now destruct (is_convert r). Qed.


(** X5.  Over any sequence of requests every request gets one answer,
    every conversion is answered either with an artifact or with a 500,
    and the lines printed are exactly one per 500 answer: a success prints
    nothing and [GET /] prints nothing. *)
Theorem errors_logged_once (rs : list Request) (w : World Pipeline) :
  (length (fst (serve env rs w)) = length rs
   /\ successes (fst (serve env rs w)) + failures (fst (serve env rs w))
      = conversions rs
   /\ prints (trace (snd (serve env rs w)))
      = prints (trace w) + failures (fst (serve env rs w)))%nat.
Proof.
  revert w; induction rs as [|r rs IH]; intros w.
  - unfold successes, failures, conversions; simpl; repeat split; lia.
  - rewrite serve_cons; cbn [fst snd length].
    rewrite successes_cons, failures_cons, conversions_cons.
    destruct (handle_accounting r w) as (_ & _ & _ & _ & Hp & Hsf).
    destruct (IH (snd (handle env r w))) as (IHl & IHsf & IHp).
    rewrite IHl, IHp, Hp; repeat split; lia.
Qed.

(** X6.  While no pipeline is loaded, a whole sequence of requests
    produces no artifact, answers every conversion with a 500, and issues
    no [pipeline.run], no export and no clean-up call. *)
Theorem unavailable_session_idle (rs : list Request) (w : World Pipeline) :
  pipeline (globals w) = None ->
  (successes (fst (serve env rs w)) = 0
   /\ failures (fst (serve env rs w)) = conversions rs
   /\ calls EvPipelineRun (trace (snd (serve env rs w)))
      = calls EvPipelineRun (trace w)
   /\ calls EvExport (trace (snd (serve env rs w))) = calls EvExport (trace w)
   /\ calls EvDelOutputs (trace (snd (serve env rs w)))
      = calls EvDelOutputs (trace w)
   /\ calls EvEmptyCache (trace (snd (serve env rs w)))
      = calls EvEmptyCache (trace w))%nat.
Proof.
  revert w; induction rs as [|r rs IH]; intros w Hp.
  - unfold successes, failures, conversions; simpl; repeat split; lia.
  - rewrite serve_cons; cbn [fst snd].
    rewrite successes_cons, failures_cons, conversions_cons.
    assert (Hg : pipeline (globals (snd (handle env r w))) = None)
      by (rewrite handle_globals; exact Hp).
    destruct (IH _ Hg) as (IHs & IHf & IHr & IHe & IHd & IHc).
    rewrite IHs, IHf, IHr, IHe, IHd, IHc.
    destruct r as [|file].
    + rewrite root_response; simpl; repeat split; lia.
    + rewrite handle_convert_paths, Hp; unfold failed.
      destruct (sanitize env (filename file)) as [safe|e];
        [destruct (read file) as [data|e];
         [destruct (image_open env data) as [image|e]|]|];
        cbn [fst snd is_success is_failure status_of is_convert];
        rewrite !calls_logged; simpl; repeat split; lia.
Qed.

End Requests.

(** * Further properties of start-up *)

Section Startup.
Context {Image Pipeline Outputs Repr Glb : Type}.
Variable env : Collaborators Image Pipeline Outputs Repr Glb.

Local Open Scope list_scope.

(** X7.  After start-up [pipeline] is bound to a handle exactly when
    [from_pretrained] returned that handle and moving it to the selected
    device returned too.  The load is attempted exactly once, whether or not
    CUDA is available, and [pipeline.to] is only ever called with the
    selected device and only after the load returned. *)
Theorem startup_pipeline_iff :
  (forall p,
      pipeline (globals (startup env)) = Some p <->
      from_pretrained env model_name = Ok p
      /\ pipeline_to env p (device (globals (startup env))) = Ok tt)
  /\ calls (EvFromPretrained model_name) (trace (startup env)) = 1%nat
  /\ (forall d,
        In (EvPipelineTo d) (trace (startup env)) ->
        d = device (globals (startup env))
        /\ exists p, from_pretrained env model_name = Ok p).
Proof.
  rewrite startup_eq; cbn [globals trace device pipeline].
  set (dev := fst (select_device env)).
  assert (Hwarn : calls (EvFromPretrained model_name) (snd (select_device env)) = 0%nat
                  /\ forall d, ~ In (EvPipelineTo d) (snd (select_device env))).
  { unfold select_device; destruct (cuda_is_available env); cbn [negb snd];
      (split; [reflexivity|]).
    - intros d [].
    - intros d [H | [H | []]]; discriminate. }
  destruct Hwarn as [Hw0 Hwto].
  unfold load_pipeline.
  destruct (from_pretrained env model_name) as [p|e] eqn:Hf.
  - destruct (pipeline_to env p dev) as [[]|e] eqn:Ht; cbn [fst snd].
    + split; [|split].
      * intros q; split.
        -- intros H; injection H as <-; auto.
        -- intros [H _]; injection H as <-; reflexivity.
      * rewrite !calls_app, Hw0; reflexivity.
      * intros d Hin.
        apply in_app_or in Hin as [[H | []] | Hin]; [discriminate|].
        apply in_app_or in Hin as [Hin | [H | [H | []]]];
          [elim (Hwto d Hin) | discriminate |].
        injection H as <-; split; [reflexivity | now exists p].
    + split; [|split].
      * intros q; split; [discriminate|].
        intros [H Hq]; injection H as <-; congruence.
      * rewrite !calls_app, Hw0; reflexivity.
      * intros d Hin.
        apply in_app_or in Hin as [[H | []] | Hin]; [discriminate|].
        apply in_app_or in Hin as [Hin | [H | [H | [H | []]]]];
          [elim (Hwto d Hin) | discriminate | | discriminate].
        injection H as <-; split; [reflexivity | now exists p].
  - cbn [fst snd]; split; [|split].
    + intros q; split; [discriminate | intros [H _]; discriminate].
    + rewrite !calls_app, Hw0; reflexivity.
    + intros d Hin.
      apply in_app_or in Hin as [[H | []] | Hin]; [discriminate|].
      apply in_app_or in Hin as [Hin | [H | [H | []]]];
        [elim (Hwto d Hin) | discriminate | discriminate].
Qed.


End Startup.

(** * Further properties of the base name *)

Section BaseName.
Import PyStr.

Local Open Scope string_scope.

Lemma append_assoc_str (s t u : string) : (s ++ t) ++ u = s ++ t ++ u.
Proof. induction s as [|a s IH]; simpl; [reflexivity | now rewrite IH]. Qed.

Lemma take_length_append (s t : string) : take (String.length s) (s ++ t) = s.
Proof. induction s as [|a s IH]; simpl; [now destruct t | now rewrite IH]. Qed.

Lemma length_dots (k : nat) : String.length (dots k) = k.
Proof. induction k as [|k IH]; simpl; [reflexivity | now rewrite IH]. Qed.

Lemma all_dots_dots (k : nat) : all_dots (dots k) = true.
Proof. induction k as [|k IH]; simpl; [reflexivity | exact IH]. Qed.

Lemma mem_sep_dots (k : nat) : mem "/" (dots k) = false.
Proof. induction k as [|k IH]; simpl; [reflexivity | exact IH]. Qed.

(** A string without [c] leaves the scan of [rfind] where it started. *)
Lemma rfind_from_notin (c : ascii) (s : string) (i last : Z) :
  mem c s = false -> rfind_from c s i last = last.
Proof.
  revert i last; induction s as [|a s IH]; intros i last H; simpl in *; [reflexivity|].
  apply orb_false_iff in H as [Ha Hs]; rewrite Ha; apply IH, Hs.
Qed.

(** The last [c] of a string is found where it stands. *)
Lemma rfind_from_last (c : ascii) (s t : string) (i last : Z) :
  mem c t = false ->
  rfind_from c (s ++ String c t) i last = i + Z.of_nat (String.length s).
Proof.
  intros Ht; revert i last; induction s as [|a s IH]; intros i last; simpl append.
  - simpl; rewrite Ascii.eqb_refl, rfind_from_notin by exact Ht; lia.
  - cbn [rfind_from String.length]; rewrite IH; lia.
Qed.

(** The leading-dots loop over a stretch [s] of the path stops early
    exactly when [s] holds something other than a dot. *)
Lemma skip_leading_dots_stretch (pre s t : string) :
  PosixPath.skip_leading_dots (pre ++ s ++ t) (String.length pre) (String.length s)
  = negb (all_dots s).
Proof.
  revert pre; induction s as [|a s IH]; intros pre; [reflexivity|].
  cbn [String.length PosixPath.skip_leading_dots all_dots].
  unfold slice1; simpl append; rewrite drop_length_append.
  cbn [take String.eqb]; unfold PosixPath.extsep.
  destruct (Ascii.eqb a ".") eqn:Ha; cbn [negb andb]; [|reflexivity].
  specialize (IH (pre ++ String a EmptyString)).
  rewrite append_assoc_str, length_append in IH; simpl in IH.
  rewrite Nat.add_1_r in IH; exact IH.
Qed.

(** X9.  A sanitized name whose only dots are leading ones, such as a
    name without any dot or a hidden-file name, has no extension to split
    off: the base name is the whole name. *)
Theorem hidden_name_kept_whole (k : nat) (rest : string) :
  mem "." rest = false ->
  mem "/" rest = false ->
  PosixPath.splitext (dots k ++ rest) = (dots k ++ rest, EmptyString)
  /\ (dots k ++ rest <> EmptyString ->
      derive_base_name (dots k ++ rest) = dots k ++ rest).
Proof.
  intros Hdot Hsep.
  assert (Hsplit : PosixPath.splitext (dots k ++ rest) = (dots k ++ rest, EmptyString)).
  { unfold PosixPath.splitext, rfind, PosixPath.sep, PosixPath.extsep.
    rewrite (rfind_from_notin "/")
      by (rewrite mem_append, mem_sep_dots, Hsep; reflexivity).
    destruct k as [|k]; simpl dots.
    - simpl append; rewrite rfind_from_notin by exact Hdot; reflexivity.
    - replace (String "." (dots k) ++ rest) with (dots k ++ String "." rest)
        by (clear; induction k as [|k IH]; simpl; [reflexivity | now rewrite IH]).
      rewrite rfind_from_last by exact Hdot.
      rewrite length_dots.
      replace (Z.to_nat (-1 + 1)) with (String.length EmptyString) by reflexivity.
      replace (Z.to_nat (0 + Z.of_nat k - (-1 + 1))) with (String.length (dots k))
        by (rewrite length_dots; lia).
      change (dots k ++ String "." rest)
        with (EmptyString ++ dots k ++ String "." rest) at 1.
      rewrite skip_leading_dots_stretch, all_dots_dots, andb_false_r; reflexivity. }
  split; [exact Hsplit|].
  intros Hne; unfold derive_base_name; rewrite Hsplit.
  destruct (dots k ++ rest); [now elim Hne | reflexivity].
Qed.

(** X10.  Naming is stable under a round trip: for a base name without a
    path separator that holds something other than dots, splitting the
    proposed download name gives back the base name and the extension
    .glb, so uploading the downloaded file again proposes the same name. *)
Theorem download_name_round_trip (base_name : string) :
  mem "/" base_name = false ->
  all_dots base_name = false ->
  PosixPath.splitext (download_name base_name) = (base_name, ".glb")
  /\ derive_base_name (download_name base_name) = base_name
  /\ download_name (derive_base_name (download_name base_name))
     = download_name base_name.
Proof.
  intros Hsep Hdots.
  assert (Hsplit : PosixPath.splitext (download_name base_name) = (base_name, ".glb")).
  { unfold PosixPath.splitext, download_name, rfind, PosixPath.sep, PosixPath.extsep.
    rewrite (rfind_from_notin "/")
      by (rewrite mem_append, Hsep; reflexivity).
    change (base_name ++ ".glb") with (base_name ++ String "." "glb").
    rewrite rfind_from_last by reflexivity.
    replace (Z.to_nat (-1 + 1)) with (String.length EmptyString) by reflexivity.
    replace (Z.to_nat (0 + Z.of_nat (String.length base_name) - (-1 + 1)))
      with (String.length base_name) by lia.
    replace (Z.to_nat (0 + Z.of_nat (String.length base_name)))
      with (String.length base_name) by lia.
    change (base_name ++ String "." "glb")
      with (EmptyString ++ base_name ++ String "." "glb") at 1.
    rewrite skip_leading_dots_stretch, Hdots.
    assert (Hgt : (0 + Z.of_nat (String.length base_name) >? -1) = true)
      by (apply Z.gtb_lt; lia).
    rewrite Hgt; cbn [andb negb].
    now rewrite take_length_append, drop_length_append. }
  assert (Hbase : derive_base_name (download_name base_name) = base_name).
  { unfold derive_base_name; rewrite Hsplit.
    destruct base_name; [discriminate | reflexivity]. }
  split; [exact Hsplit|]; split; [exact Hbase | now rewrite Hbase].
Qed.

Lemma take_add (a b : nat) (s : string) :
  take (a + b) s = take a s ++ take b (drop a s).
Proof.
  revert s; induction a as [|a IH]; intros s; [reflexivity|].
  destruct s as [|c s]; simpl; [now destruct b | now rewrite IH].
Qed.

(** X11.  Deriving the base name never removes a path separator: if the
    sanitized name holds one, so does the base name.  Keeping separators
    out of the download name is left entirely to the sanitizer. *)
Theorem separator_kept (safe_name : string) :
  mem "/" safe_name = true ->
  mem "/" (derive_base_name safe_name) = true.
Proof.
  intros Hsep.
  assert (Hroot : mem "/" (fst (PosixPath.splitext safe_name)) = true).
  { unfold PosixPath.splitext.
    destruct (_ && _) eqn:Hc; cbn [fst]; [|exact Hsep].
    apply andb_true_iff in Hc as [Hgt _]; apply Z.gtb_lt in Hgt.
    destruct (rfind_spec PosixPath.sep safe_name) as [[_ Hnone] | [H0 [rest [Hd _]]]];
      [unfold PosixPath.sep in Hnone; congruence|].
    replace (Z.to_nat (rfind PosixPath.extsep safe_name))
      with (Z.to_nat (rfind PosixPath.sep safe_name)
            + S (Z.to_nat (rfind PosixPath.extsep safe_name
                           - rfind PosixPath.sep safe_name - 1)))%nat by lia.
    rewrite take_add, Hd, mem_append; simpl.
    apply orb_true_r. }
  unfold derive_base_name.
  destruct (PosixPath.splitext safe_name) as [base ext]; cbn [fst] in Hroot.
  destruct base; [discriminate | exact Hroot].
Qed.

End BaseName.

(** ** The further properties on the sample collaborators *)

Lemma failed_job_skips_cleanup_witness :
  process_image_to_glb_bytes (Sample.env Sample.export_fails) Sample.png
    (Sample.world Sample.export_fails)
  = (Raise "export failed", Sample.after_job Sample.export_fails)
  /\ calls EvDelOutputs (trace (Sample.after_job Sample.export_fails)) = 0%nat
  /\ calls EvEmptyCache (trace (Sample.after_job Sample.export_fails)) = 0%nat.
Proof.
  assert (H : process_image_to_glb_bytes (Sample.env Sample.export_fails) Sample.png
                (Sample.world Sample.export_fails)
              = (Raise "export failed", Sample.after_job Sample.export_fails))
    by reflexivity.
  split; [exact H|].
  destruct (failed_job_skips_cleanup _ _ _ _ _ H) as (_ & Hd & Hc & _).
  split; [rewrite Hd | rewrite Hc]; reflexivity.
Defined.

Lemma unavailable_session_idle_witness :
  pipeline (globals (Sample.world Sample.no_model)) = None
  /\ failures (fst (serve (Sample.env Sample.no_model)
                      [PostConvert (Sample.upload "chair.png" Sample.png); GetRoot;
                       PostConvert (Sample.upload "notes.txt" [])]
                      (Sample.world Sample.no_model))) = 2%nat
  /\ calls EvPipelineRun
       (trace (snd (serve (Sample.env Sample.no_model)
                      [PostConvert (Sample.upload "chair.png" Sample.png); GetRoot;
                       PostConvert (Sample.upload "notes.txt" [])]
                      (Sample.world Sample.no_model)))) = 0%nat.
Proof.
  split; [reflexivity|].
  destruct (unavailable_session_idle (Sample.env Sample.no_model)
              [PostConvert (Sample.upload "chair.png" Sample.png); GetRoot;
               PostConvert (Sample.upload "notes.txt" [])]
              (Sample.world Sample.no_model) eq_refl)
    as (_ & Hf & Hr & _).
  split; [rewrite Hf | rewrite Hr]; reflexivity.
Defined.

Lemma hidden_name_kept_whole_witness :
  PyStr.mem "." "bashrc" = false
  /\ PyStr.mem "/" "bashrc" = false
  /\ derive_base_name ".bashrc" = ".bashrc"
  /\ download_name (derive_base_name ".bashrc") = ".bashrc.glb".
Proof.
  split; [reflexivity|]; split; [reflexivity|].
  destruct (hidden_name_kept_whole 1 "bashrc" eq_refl eq_refl) as [_ H].
  assert (Hb : derive_base_name ".bashrc" = ".bashrc")
    by (apply H; discriminate).
  split; [exact Hb | rewrite Hb; reflexivity].
Defined.

Lemma download_name_round_trip_witness :
  PyStr.mem "/" "model.tar" = false
  /\ all_dots "model.tar" = false
  /\ PosixPath.splitext "model.tar.glb" = ("model.tar", ".glb")
  /\ derive_base_name "model.tar.glb" = "model.tar".
Proof.
  split; [reflexivity|]; split; [reflexivity|].
  destruct (download_name_round_trip "model.tar" eq_refl eq_refl) as (Hs & Hb & _).
  split; [exact Hs | exact Hb].
Defined.

Lemma separator_kept_witness :
  PyStr.mem "/" "up/evil.png" = true
  /\ PyStr.mem "/" (derive_base_name "up/evil.png") = true.
Proof.
  split; [reflexivity|].
  exact (separator_kept "up/evil.png" eq_refl).
Defined.
